(** * State-store provisioning steps of the cluster controller

    A shallow embedding of [internal/controller/state.go]: the two
    checkpoint-gated steps [StateStoreCredentials] and [StateStoreCreate]
    of [ClusterController], together with the properties their
    specification states about them.

    The steps talk to the cluster record store and to the provider
    packages.  Both are outside the file; every call to them is recorded
    in a trace and answered by a [Collaborators] record, whose answers may
    depend on the calls made so far. *)

From Stdlib Require Import Ascii.
From stdpp Require Import gmap strings list fin_maps.

Local Open Scope string_scope.
Local Open Scope list_scope.
Local Open Scope stdpp_scope.

(** ** Error values *)

(** [fmt.Sprintf], restricted to what the formats of this file use: the
    verb [%s] with string operands, [%%], and fmt's markers for a missing
    operand or verb.  Flags, widths and surplus operands are not
    modelled. *)
Fixpoint Sprintf (format : string) (operands : list string) : string :=
  match format with
  | EmptyString => EmptyString
  | String "%"%char EmptyString => "%!(NOVERB)"
  | String "%"%char (String c rest) =>
      if Ascii.eqb c "%" then String "%" (Sprintf rest operands)
      else match operands with
           | a :: operands' =>
               (if Ascii.eqb c "s" then a
                else "%!" +:+ String c ("(string=" +:+ a +:+ ")"))
               +:+ Sprintf rest operands'
           | [] => "%!" +:+ String c "(MISSING)" +:+ Sprintf rest []
           end
  | String c rest => String c (Sprintf rest operands)
  end.

(** A Go [error]: either a value handed over by a collaborator, known by
    its text, or one built here by [fmt.Errorf].  An error operand of
    [fmt.Errorf] is passed as its text, which is what [%s] prints. *)
Inductive error : Type :=
| Upstream (msg : string)
| Errorf (format : string) (operands : list string).

Definition Error (e : error) : string :=
  match e with
  | Upstream msg => msg
  | Errorf format operands => Sprintf format operands
  end.

#[global] Instance error_eq_dec : EqDecision error.
Proof. solve_decision. Defined.

(** [strings.ReplaceAll s old new_]: non-overlapping occurrences of [old]
    replaced from the left; for an empty [old], [new_] goes before every
    character and at the end. *)
Fixpoint ReplaceAll_from (fuel : nat) (s old new_ : string) : string :=
  match fuel with
  | O => s
  | S fuel' =>
      match s with
      | EmptyString => EmptyString
      | String c rest =>
          if String.prefix old s
          then new_ +:+ ReplaceAll_from fuel'
                 (String.substring (String.length old)
                    (String.length s - String.length old) s) old new_
          else String c (ReplaceAll_from fuel' rest old new_)
      end
  end.

Fixpoint intersperse_before (new_ s : string) : string :=
  match s with
  | EmptyString => new_
  | String c rest => new_ +:+ String c (intersperse_before new_ rest)
  end.

Definition ReplaceAll (s old new_ : string) : string :=
  match old with
  | EmptyString => intersperse_before new_ s
  | _ => ReplaceAll_from (String.length s) s old new_
  end.

(** ** Canonical entities and the cluster record *)

(** [types.StateStoreCredentials]. *)
Record StateStoreCredentialsT : Type := mkStateStoreCredentials {
  AccessKeyID : string;
  SecretAccessKey : string;
  Name : string;
  ID : string
}.

(** [types.StateStoreDetails]. *)
Record StateStoreDetailsT : Type := mkStateStoreDetails {
  AWSStateStoreBucket : string;
  AWSArtifactsBucket : string;
  DetailsName : string;
  DetailsID : string;
  Hostname : string
}.

Definition zeroCredentials : StateStoreCredentialsT :=
  mkStateStoreCredentials "" "" "" "".

Definition zeroDetails : StateStoreDetailsT :=
  mkStateStoreDetails "" "" "" "" "".

(** The part of [types.Cluster] the two steps read or write. *)
Record Cluster : Type := mkCluster {
  StateStoreCredsCheck : bool;
  StateStoreCreateCheck : bool;
  StateStoreCredentials_ : StateStoreCredentialsT;
  StateStoreDetails_ : StateStoreDetailsT
}.

Definition zeroCluster : Cluster :=
  mkCluster false false zeroCredentials zeroDetails.

(** The value argument of [UpdateCluster] (an [interface{}] in Go): the
    three dynamic types the steps pass. *)
Inductive FieldValue : Type :=
| VDetails (d : StateStoreDetailsT)
| VCredentials (c : StateStoreCredentialsT)
| VBool (b : bool).

(** ** Provider-native shapes *)

(** [s3.CreateBucketOutput]: [Location] is a [*string]. *)
Record CreateBucketOutput : Type := mkCreateBucketOutput {
  Location : option string
}.

(** [civogo.ObjectStoreCredential]. *)
Record ObjectStoreCredential : Type := mkObjectStoreCredential {
  civoAccessKeyID : string;
  civoID : string;
  civoName : string;
  civoSecretAccessKeyID : string
}.

(** [civogo.ObjectStore]. *)
Record ObjectStore : Type := mkObjectStore {
  bucketName : string;
  bucketID : string
}.

(** [digitalocean.DigitaloceanSpacesCredentials]. *)
Record DigitaloceanSpacesCredentials : Type := mkDigitaloceanSpacesCredentials {
  doAccessKey : string;
  doSecretAccessKey : string;
  doEndpoint : string
}.

(** [govultr.ObjectStorage]. *)
Record ObjectStorage : Type := mkObjectStorage {
  objstID : string;
  objstLabel : string;
  S3AccessKey : string;
  S3SecretKey : string;
  S3Hostname : string
}.

(** [vultr.VultrBucketCredentials]. *)
Record VultrBucketCredentials : Type := mkVultrBucketCredentials {
  vultrAccessKey : string;
  vultrSecretAccessKey : string;
  vultrEndpoint : string
}.

(** ** Calls that leave the controller *)

Inductive Event : Type :=
| EvGetCluster (clusterName : string)
| EvUpdateCluster (clusterName field : string) (value : FieldValue)
| EvAwsCreateBucket (bucket : string)
| EvCivoGetAccessCredentials (credentialName region : string)
| EvCivoDeleteAccessCredentials (credentialName region : string)
| EvCivoCreateStorageBucket (accessKeyId bucket region : string)
| EvNewDigitalocean
| EvDoCreateSpaceBucket (creds : DigitaloceanSpacesCredentials) (bucket : string)
| EvNewVultr
| EvVultrCreateObjectStorage (region storeName : string)
| EvVultrCreateObjectStorageBucket (creds : VultrBucketCredentials) (bucket : string).

(** A field update of the cluster record store. *)
Definition is_update (ev : Event) : bool :=
  match ev with
  | EvUpdateCluster _ _ _ => true
  | _ => false
  end.

(** A call into one of the provider packages. *)
Definition is_adapter_call (ev : Event) : bool :=
  match ev with
  | EvGetCluster _ | EvUpdateCluster _ _ _ => false
  | _ => true
  end.

(** What the collaborators answer.  The first argument of every answer is
    the trace of the calls made before this one. *)
Record Collaborators : Type := mkCollaborators {
  getClusterFault : list Event -> string -> option error;
  updateClusterFault : list Event -> string -> string -> FieldValue -> option error;
  awsCreateBucket : list Event -> string -> option CreateBucketOutput * option error;
  civoGetAccessCredentials :
    list Event -> string -> string -> ObjectStoreCredential * option error;
  civoDeleteAccessCredentials : list Event -> string -> string -> option error;
  civoCreateStorageBucket :
    list Event -> string -> string -> string -> ObjectStore * option error;
  doCreateSpaceBucket :
    list Event -> DigitaloceanSpacesCredentials -> string -> option error;
  vultrCreateObjectStorage :
    list Event -> string -> string -> ObjectStorage * option error;
  vultrCreateObjectStorageBucket :
    list Event -> VultrBucketCredentials -> string -> option error;
  Getenv : string -> string
}.

(** ** Process state and the monad of a step *)

Record World : Type := mkWorld {
  mdb : gmap string Cluster;
  trace : list Event;
  logs : list string;
  DigitaloceanStateStoreBucketName : string;
  VultrStateStoreBucketHostname : string
}.

Inductive result (A : Type) : Type :=
| Ok (a : A)
| Fail (e : error)
| Panic.
Arguments Ok {A} a.
Arguments Fail {A} e.
Arguments Panic {A}.

Definition M (A : Type) : Type := World -> result A * World.

#[global] Instance M_ret : MRet M := fun A a w => (Ok a, w).

#[global] Instance M_bind : MBind M := fun A B k m w =>
  match m w with
  | (Ok a, w') => k a w'
  | (Fail e, w') => (Fail e, w')
  | (Panic, w') => (Panic, w')
  end.

(** [return err] *)
Definition throw {A} (e : error) : M A := fun w => (Fail e, w).

(** A nil dereference. *)
Definition panic {A} : M A := fun w => (Panic, w).

(** [if err != nil { return err }] *)
Definition check (err : option error) : M unit :=
  match err with
  | Some e => throw e
  | None => mret tt
  end.

Definition emit (ev : Event) : M unit := fun w =>
  (Ok tt, mkWorld (mdb w) (trace w ++ [ev]) (logs w)
            (DigitaloceanStateStoreBucketName w) (VultrStateStoreBucketHostname w)).

(** [log.Info] and [log.Infof] *)
Definition log_Info (msg : string) : M unit := fun w =>
  (Ok tt, mkWorld (mdb w) (trace w) (logs w ++ [msg])
            (DigitaloceanStateStoreBucketName w) (VultrStateStoreBucketHostname w)).

Definition set_mdb (m : gmap string Cluster) : M unit := fun w =>
  (Ok tt, mkWorld m (trace w) (logs w)
            (DigitaloceanStateStoreBucketName w) (VultrStateStoreBucketHostname w)).

Definition set_DigitaloceanStateStoreBucketName (s : string) : M unit := fun w =>
  (Ok tt, mkWorld (mdb w) (trace w) (logs w) s (VultrStateStoreBucketHostname w)).

Definition set_VultrStateStoreBucketHostname (s : string) : M unit := fun w =>
  (Ok tt, mkWorld (mdb w) (trace w) (logs w) (DigitaloceanStateStoreBucketName w) s).

(** Asks a collaborator: the answer is computed from the trace so far,
    then the call is recorded. *)
Definition ask {A} (ev : Event) (answer : list Event -> A) : M A := fun w =>
  (Ok (answer (trace w)),
   mkWorld (mdb w) (trace w ++ [ev]) (logs w)
     (DigitaloceanStateStoreBucketName w) (VultrStateStoreBucketHostname w)).

Definition deref {A} (p : option A) : M A :=
  match p with
  | Some a => mret a
  | None => panic
  end.

(** ** The cluster record store *)

(** Modelled from the spec: the effect of a named-field update on the
    stored record ([MongoDBClient.UpdateCluster] is not part of this
    file).  Each of the four fields the steps touch is replaced wholesale
    by a value of its type; anything else leaves the record as it is. *)
Definition apply_field (field : string) (value : FieldValue) (cl : Cluster) : Cluster :=
  match value with
  | VDetails d =>
      if String.eqb field "state_store_details"
      then mkCluster (StateStoreCredsCheck cl) (StateStoreCreateCheck cl)
             (StateStoreCredentials_ cl) d
      else cl
  | VCredentials c =>
      if String.eqb field "state_store_credentials"
      then mkCluster (StateStoreCredsCheck cl) (StateStoreCreateCheck cl)
             c (StateStoreDetails_ cl)
      else cl
  | VBool b =>
      if String.eqb field "state_store_creds_check"
      then mkCluster b (StateStoreCreateCheck cl)
             (StateStoreCredentials_ cl) (StateStoreDetails_ cl)
      else if String.eqb field "state_store_create_check"
      then mkCluster (StateStoreCredsCheck cl) b
             (StateStoreCredentials_ cl) (StateStoreDetails_ cl)
      else cl
  end.

(** The fields of [ClusterController] the two steps use. *)
Record ClusterController : Type := mkClusterController {
  ClusterName : string;
  CloudProvider : string;
  CloudRegion : string;
  KubefirstStateStoreBucketName : string;
  KubefirstArtifactsBucketName : string;
  AwsAccessKeyID : string;
  AwsSecretAccessKey : string
}.

Section Steps.

Variable E : Collaborators.

(** Modelled from the spec: [MongoDBClient.GetCluster], a full snapshot
    read of the record of [clusterName]; it fails when the store does, or
    when there is no such record. *)
Definition MdbCl_GetCluster (clusterName : string) : M (Cluster * option error) :=
  w ← (λ w, (Ok w, w));
  ask (EvGetCluster clusterName) (λ t,
    match getClusterFault E t clusterName with
    | Some e => (zeroCluster, Some e)
    | None =>
        match mdb w !! clusterName with
        | Some cl => (cl, None)
        | None => (zeroCluster, Some (Errorf "cluster not found" []))
        end
    end).

(** Modelled from the spec: [MongoDBClient.UpdateCluster], a named-field
    update of the record of [clusterName].  A failed update leaves the
    store as it was. *)
Definition MdbCl_UpdateCluster (clusterName field : string) (value : FieldValue)
  : M (option error) :=
  w ← (λ w, (Ok w, w));
  err ← ask (EvUpdateCluster clusterName field value) (λ t,
    match updateClusterFault E t clusterName field value with
    | Some e => Some e
    | None =>
        match mdb w !! clusterName with
        | Some _ => None
        | None => Some (Errorf "cluster not found" [])
        end
    end);
  match err with
  | Some e => mret (Some e)
  | None =>
      set_mdb (alter (apply_field field value) clusterName (mdb w));;
      mret None
  end.

(** ** The two steps *)

(** The [switch] over the fields of the civo credentials: the message of
    the first case that holds, or the empty string. *)
Definition civoCredsFailureMessage (creds : ObjectStoreCredential) : string :=
  if String.eqb (civoAccessKeyID creds) "" then
    "when retrieving civo access credentials, AccessKeyID was empty - please retry your cluster creation"
  else if String.eqb (civoID creds) "" then
    "when retrieving civo access credentials, ID was empty - please retry your cluster creation"
  else if String.eqb (civoName creds) "" then
    "when retrieving civo access credentials, Name was empty - please retry your cluster creation"
  else if String.eqb (civoSecretAccessKeyID creds) "" then
    "when retrieving civo access credentials, SecretAccessKeyID was empty - please retry your cluster creation"
  else "".

(** [case "aws"] *)
Definition credentials_aws (clctrl : ClusterController) : M StateStoreCredentialsT :=
  '(kubefirstStateStoreBucket, err) ←
    ask (EvAwsCreateBucket (KubefirstStateStoreBucketName clctrl))
        (λ t, awsCreateBucket E t (KubefirstStateStoreBucketName clctrl));
  check err;;
  '(kubefirstArtifactsBucket, err) ←
    ask (EvAwsCreateBucket (KubefirstArtifactsBucketName clctrl))
        (λ t, awsCreateBucket E t (KubefirstArtifactsBucketName clctrl));
  check err;;
  let stateStoreData :=
    mkStateStoreCredentials (AwsAccessKeyID clctrl) (AwsSecretAccessKey clctrl) "" "" in
  stateOut ← deref kubefirstStateStoreBucket;
  stateLocation ← deref (Location stateOut);
  artifactsOut ← deref kubefirstArtifactsBucket;
  artifactsLocation ← deref (Location artifactsOut);
  err ← MdbCl_UpdateCluster (ClusterName clctrl) "state_store_details"
          (VDetails (mkStateStoreDetails
                       (ReplaceAll stateLocation "/" "")
                       (ReplaceAll artifactsLocation "/" "")
                       "" "" ""));
  check err;;
  mret stateStoreData.

(** [case "civo"] *)
Definition credentials_civo (clctrl : ClusterController) : M StateStoreCredentialsT :=
  '(creds, err) ←
    ask (EvCivoGetAccessCredentials (KubefirstStateStoreBucketName clctrl) (CloudRegion clctrl))
        (λ t, civoGetAccessCredentials E t
                (KubefirstStateStoreBucketName clctrl) (CloudRegion clctrl));
  match err with
  | Some e => log_Info (Error e)
  | None => mret tt
  end;;
  let message := civoCredsFailureMessage creds in
  if negb (String.eqb message "") then
    err ←
      ask (EvCivoDeleteAccessCredentials
             (KubefirstStateStoreBucketName clctrl) (CloudRegion clctrl))
          (λ t, civoDeleteAccessCredentials E t
                  (KubefirstStateStoreBucketName clctrl) (CloudRegion clctrl));
    check err;;
    throw (Errorf message [])
  else
    mret (mkStateStoreCredentials
            (civoAccessKeyID creds) (civoSecretAccessKeyID creds)
            (civoName creds) (civoID creds)).

(** [case "digitalocean"] *)
Definition credentials_digitalocean (clctrl : ClusterController) : M StateStoreCredentialsT :=
  emit EvNewDigitalocean;;
  let creds :=
    mkDigitaloceanSpacesCredentials
      (Getenv E "DO_SPACES_KEY") (Getenv E "DO_SPACES_SECRET")
      (Sprintf "%s.digitaloceanspaces.com" ["nyc3"]) in
  err ←
    ask (EvDoCreateSpaceBucket creds (KubefirstStateStoreBucketName clctrl))
        (λ t, doCreateSpaceBucket E t creds (KubefirstStateStoreBucketName clctrl));
  match err with
  | Some e =>
      let msg := Sprintf "error creating spaces bucket %s: %s"
                   [KubefirstStateStoreBucketName clctrl; Error e] in
      throw (Errorf msg [])
  | None => mret tt
  end;;
  let stateStoreData :=
    mkStateStoreCredentials (doAccessKey creds) (doSecretAccessKey creds)
      (KubefirstStateStoreBucketName clctrl) "" in
  err ← MdbCl_UpdateCluster (ClusterName clctrl) "state_store_details"
          (VDetails (mkStateStoreDetails "" ""
                       (KubefirstStateStoreBucketName clctrl) "" (doEndpoint creds)));
  check err;;
  set_DigitaloceanStateStoreBucketName (doEndpoint creds);;
  mret stateStoreData.

(** [case "vultr"] *)
Definition credentials_vultr (clctrl : ClusterController) : M StateStoreCredentialsT :=
  emit EvNewVultr;;
  '(objst, err) ←
    ask (EvVultrCreateObjectStorage (CloudRegion clctrl) (KubefirstStateStoreBucketName clctrl))
        (λ t, vultrCreateObjectStorage E t
                (CloudRegion clctrl) (KubefirstStateStoreBucketName clctrl));
  match err with
  | Some e => log_Info (Error e);; throw e
  | None => mret tt
  end;;
  let bucketCreds :=
    mkVultrBucketCredentials (S3AccessKey objst) (S3SecretKey objst) (S3Hostname objst) in
  err ←
    ask (EvVultrCreateObjectStorageBucket bucketCreds (KubefirstStateStoreBucketName clctrl))
        (λ t, vultrCreateObjectStorageBucket E t bucketCreds
                (KubefirstStateStoreBucketName clctrl));
  match err with
  | Some e => throw (Errorf "error creating vultr state storage bucket: %s" [Error e])
  | None => mret tt
  end;;
  let stateStoreData :=
    mkStateStoreCredentials (S3AccessKey objst) (S3SecretKey objst)
      (objstLabel objst) (objstID objst) in
  err ← MdbCl_UpdateCluster (ClusterName clctrl) "state_store_details"
          (VDetails (mkStateStoreDetails "" ""
                       (objstLabel objst) (objstID objst) (S3Hostname objst)));
  check err;;
  set_VultrStateStoreBucketHostname (S3Hostname objst);;
  mret stateStoreData.

(** [switch clctrl.CloudProvider]: the branch of the provider, giving the
    value of [stateStoreData]; no case matches another provider, and
    [stateStoreData] keeps its zero value. *)
Definition credentials_switch (clctrl : ClusterController) : M StateStoreCredentialsT :=
  if String.eqb (CloudProvider clctrl) "aws" then credentials_aws clctrl
  else if String.eqb (CloudProvider clctrl) "civo" then credentials_civo clctrl
  else if String.eqb (CloudProvider clctrl) "digitalocean" then credentials_digitalocean clctrl
  else if String.eqb (CloudProvider clctrl) "vultr" then credentials_vultr clctrl
  else mret zeroCredentials.

(** [func (clctrl *ClusterController) StateStoreCredentials() error] *)
Definition StateStoreCredentials (clctrl : ClusterController) : M unit :=
  '(cl, err) ← MdbCl_GetCluster (ClusterName clctrl);
  check err;;
  if negb (StateStoreCredsCheck cl) then
    stateStoreData ← credentials_switch clctrl;
    err ← MdbCl_UpdateCluster (ClusterName clctrl) "state_store_credentials"
            (VCredentials stateStoreData);
    check err;;
    err ← MdbCl_UpdateCluster (ClusterName clctrl) "state_store_creds_check" (VBool true);
    check err;;
    log_Info (Sprintf "%s object storage credentials created and set"
                [CloudProvider clctrl])
  else mret tt.

(** [func (clctrl *ClusterController) StateStoreCreate() error] *)
Definition StateStoreCreate (clctrl : ClusterController) : M unit :=
  '(cl, err) ← MdbCl_GetCluster (ClusterName clctrl);
  check err;;
  if negb (StateStoreCreateCheck cl) then
    if String.eqb (CloudProvider clctrl) "civo" then
      let accessKeyId := AccessKeyID (StateStoreCredentials_ cl) in
      log_Info (Sprintf "access key id %s" [accessKeyId]);;
      '(bucket, err) ←
        ask (EvCivoCreateStorageBucket accessKeyId
               (KubefirstStateStoreBucketName clctrl) (CloudRegion clctrl))
            (λ t, civoCreateStorageBucket E t accessKeyId
                    (KubefirstStateStoreBucketName clctrl) (CloudRegion clctrl));
      match err with
      | Some e => log_Info (Error e);; throw e
      | None => mret tt
      end;;
      let stateStoreData :=
        mkStateStoreDetails "" "" (bucketName bucket) (bucketID bucket) "" in
      err ← MdbCl_UpdateCluster (ClusterName clctrl) "state_store_details"
              (VDetails stateStoreData);
      check err;;
      err ← MdbCl_UpdateCluster (ClusterName clctrl) "state_store_create_check" (VBool true);
      check err;;
      log_Info (Sprintf "%s state store bucket created" [CloudProvider clctrl])
    else mret tt
  else mret tt.

End Steps.

(** ** Observing a run *)

(** The error a step returns: [Some None] is [nil], [None] a panic. *)
Definition returned (r : result unit * World) : option (option error) :=
  match r.1 with
  | Ok _ => Some None
  | Fail e => Some (Some e)
  | Panic => None
  end.

(** The calls made between two worlds, oldest first. *)
Definition calls_between (w w' : World) : list Event :=
  drop (length (trace w)) (trace w').

(** The record of a cluster after a run. *)
Definition record_after (r : result unit * World) (clusterName : string) : option Cluster :=
  mdb r.2 !! clusterName.

(** ** Invariants of a run *)

(** [m] keeps [I]: whatever it returns, the world it leaves satisfies [I]
    if the world it started from did. *)
Definition preserves {A} (I : World → Prop) (m : M A) : Prop :=
  ∀ w, I w → I (m w).2.

(** A call that, if it writes a checkpoint flag, writes [true]. *)
Definition checkpoint_write_is_true (ev : Event) : bool :=
  match ev with
  | EvUpdateCluster _ field value =>
      if String.eqb field "state_store_creds_check"
         || String.eqb field "state_store_create_check"
      then match value with
           | VBool b => b
           | _ => false
           end
      else true
  | _ => true
  end.

(** Between two states of one record, no checkpoint flag went from true
    to false (and the record neither appeared nor disappeared). *)
Definition flags_kept (before after : option Cluster) : bool :=
  match before, after with
  | Some cl, Some cl' =>
      implb (StateStoreCredsCheck cl) (StateStoreCredsCheck cl')
      && implb (StateStoreCreateCheck cl) (StateStoreCreateCheck cl')
  | None, None => true
  | _, _ => false
  end.

(** Since the world [w0], every call made satisfies [P]. *)
Definition calls_since (P : Event → bool) (w0 w : World) : Prop :=
  ∃ evs, trace w = trace w0 ++ evs ∧ Forall (λ ev, P ev = true) evs.

(** Since the world [w0], no flag of any record was reset. *)
Definition flags_since (w0 w : World) : Prop :=
  ∀ n, flags_kept (mdb w0 !! n) (mdb w !! n) = true.

(** A call about the digitalocean bucket that carries the endpoint
    [nyc3.digitaloceanspaces.com]: as the endpoint of the credentials a
    bucket is created with, as the host name of the details persisted. *)
Definition endpoint_is_nyc3 (ev : Event) : bool :=
  match ev with
  | EvDoCreateSpaceBucket creds _ =>
      String.eqb (doEndpoint creds) "nyc3.digitaloceanspaces.com"
  | EvUpdateCluster _ _ (VDetails d) =>
      String.eqb (Hostname d) "nyc3.digitaloceanspaces.com"
  | _ => true
  end.

(** ** The two steps, by name *)

Inductive Step : Type := Credentials | Create.

Definition run (s : Step) (E : Collaborators) (clctrl : ClusterController) : M unit :=
  match s with
  | Credentials => StateStoreCredentials E clctrl
  | Create => StateStoreCreate E clctrl
  end.

(** The checkpoint flag of a step, and the data field it persists last. *)
Definition checkpoint_field (s : Step) : string :=
  match s with
  | Credentials => "state_store_creds_check"
  | Create => "state_store_create_check"
  end.

Definition data_field (s : Step) : string :=
  match s with
  | Credentials => "state_store_credentials"
  | Create => "state_store_details"
  end.

Definition checkpoint_of (s : Step) (cl : Cluster) : bool :=
  match s with
  | Credentials => StateStoreCredsCheck cl
  | Create => StateStoreCreateCheck cl
  end.

(** A call other than the lookup: a provider call or a field update. *)
Definition is_provisioning (ev : Event) : bool :=
  is_update ev || is_adapter_call ev.


(** ** The validator, as the specification words it *)

(** The required fields of a civo credential object, in the order in
    which they are checked: access key, resource id, resource name,
    secret key; each with the name the failure message gives it. *)
Definition civo_required_fields (creds : ObjectStoreCredential) : list (string * string) :=
  [ ("AccessKeyID", civoAccessKeyID creds);
    ("ID", civoID creds);
    ("Name", civoName creds);
    ("SecretAccessKeyID", civoSecretAccessKeyID creds) ].

(** The name of the first required field that is empty. *)
Definition first_missing_field (creds : ObjectStoreCredential) : option string :=
  fst <$> List.find (λ p, String.eqb p.2 "") (civo_required_fields creds).

(** The failure message about one field: it names the field and asks for
    cluster creation to be retried. *)
Definition missing_field_message (field : string) : string :=
  "when retrieving civo access credentials, " +:+ field
  +:+ " was empty - please retry your cluster creation".

(** A credential bundle with its access key and its secret key. *)
Definition bundle_nonempty (c : StateStoreCredentialsT) : Prop :=
  AccessKeyID c ≠ "" ∧ SecretAccessKey c ≠ "".

(** A bundle all of whose fields are filled in. *)
Definition bundle_complete (c : StateStoreCredentialsT) : Prop :=
  AccessKeyID c ≠ "" ∧ SecretAccessKey c ≠ "" ∧ Name c ≠ "" ∧ ID c ≠ "".

(** An update of one of the two checkpoint flags. *)
Definition is_checkpoint_update (ev : Event) : bool :=
  match ev with
  | EvUpdateCluster _ field _ =>
      String.eqb field "state_store_creds_check"
      || String.eqb field "state_store_create_check"
  | _ => false
  end.

(** ** Collaborators and inputs for the examples *)

(** Collaborators that never fail: the civo calls answer [civoCreds] with
    the error [civoErr], the compensating delete answers [deleteErr], and
    the environment is [env]. *)
Definition scripted (civoCreds : ObjectStoreCredential) (civoErr deleteErr : option error)
    (env : string → string) : Collaborators :=
  mkCollaborators
    (λ _ _, None)
    (λ _ _ _ _, None)
    (λ _ bucket, (Some (mkCreateBucketOutput (Some ("/" +:+ bucket))), None))
    (λ _ _ _, (civoCreds, civoErr))
    (λ _ _ _, deleteErr)
    (λ _ _ bucket _, (mkObjectStore bucket "bucket-id", None))
    (λ _ _ _, None)
    (λ _ _ storeName,
       (mkObjectStorage "" storeName "" "" "ewr1.vultrobjects.com", None))
    (λ _ _ _, None)
    env.

Definition no_environment : string → string := λ _, "".

(** The example of the specification: civo credentials without a name. *)
Definition nameless : ObjectStoreCredential :=
  mkObjectStoreCredential "AK1" "cred-1" "" "SK1".

Definition complete_creds : ObjectStoreCredential :=
  mkObjectStoreCredential "AK1" "cred-1" "demo" "SK1".

Definition zero_creds : ObjectStoreCredential :=
  mkObjectStoreCredential "" "" "" "".

(** Cluster [demo] in region [nyc1], for a given provider. *)
Definition demo (provider : string) : ClusterController :=
  mkClusterController "demo" provider "nyc1" "k1-state-store-demo" "k1-artifacts-demo" "" "".

(** A store that holds [cl] as the record of [demo], and nothing done yet. *)
Definition world_with (cl : Cluster) : World :=
  mkWorld {[ "demo" := cl ]} [] [] "" "".

Definition fresh_world : World := world_with zeroCluster.

Definition creds_done : Cluster :=
  mkCluster true false (mkStateStoreCredentials "AK1" "SK1" "demo" "cred-1") zeroDetails.

Definition timeout_error : error := Upstream "context deadline exceeded".

(** ** Statements that the code is checked against *)

(** [StateStoreCreate] refusing to provision without an access key: on a
    civo record not yet checkpointed whose stored access key is empty, an
    error comes back and no provider call has been made. *)
Definition create_fails_fast_without_access_key : Prop :=
  ∀ (E : Collaborators) (clctrl : ClusterController) (w : World) (cl : Cluster),
    getClusterFault E (trace w) (ClusterName clctrl) = None →
    mdb w !! ClusterName clctrl = Some cl →
    CloudProvider clctrl = "civo" →
    StateStoreCreateCheck cl = false →
    AccessKeyID (StateStoreCredentials_ cl) = "" →
    let r := StateStoreCreate E clctrl w in
    (∃ e, returned r = Some (Some e))
    ∧ filter (λ ev, is_adapter_call ev) (calls_between w r.2) = [].

(** [StateStoreCredentials] setting its checkpoint only over a validated
    bundle: whatever the provider, if a run turns [StateStoreCredsCheck]
    from false to true, the credentials in the record have an access key
    and a secret key. *)
Definition checkpoint_implies_validated_bundle : Prop :=
  ∀ (E : Collaborators) (clctrl : ClusterController) (w : World) (cl cl' : Cluster),
    mdb w !! ClusterName clctrl = Some cl →
    StateStoreCredsCheck cl = false →
    record_after (StateStoreCredentials E clctrl w) (ClusterName clctrl) = Some cl' →
    StateStoreCredsCheck cl' = true →
    bundle_nonempty (StateStoreCredentials_ cl').

(** [sub] occurs in [s]. *)
Fixpoint occurs (sub s : string) : bool :=
  String.prefix sub s
  || match s with
     | EmptyString => false
     | String _ rest => occurs sub rest
     end.

(** [StateStoreCredentials] naming the first missing field whenever the
    civo validation fails: on an unchecked civo record, if some required
    field of the credentials [GetAccessCredentials] answered is empty,
    the step returns an error whose text has the name of the first empty
    one in it. *)
Definition validation_failure_names_first_missing : Prop :=
  ∀ (E : Collaborators) (clctrl : ClusterController) (w : World) (cl : Cluster)
    (creds : ObjectStoreCredential) (err : option error) (field : string),
    getClusterFault E (trace w) (ClusterName clctrl) = None →
    mdb w !! ClusterName clctrl = Some cl →
    StateStoreCredsCheck cl = false →
    CloudProvider clctrl = "civo" →
    civoGetAccessCredentials E (trace w ++ [EvGetCluster (ClusterName clctrl)])
      (KubefirstStateStoreBucketName clctrl) (CloudRegion clctrl) = (creds, err) →
    first_missing_field creds = Some field →
    ∃ e, returned (StateStoreCredentials E clctrl w) = Some (Some e)
         ∧ occurs field (Error e) = true.

(** ** Further observations of a run *)

(** A call the branch of [provider] may make: the store calls, and the
    calls into the package of that provider. *)
Definition belongs_to_provider (provider : string) (ev : Event) : bool :=
  match ev with
  | EvGetCluster _ | EvUpdateCluster _ _ _ => true
  | EvAwsCreateBucket _ => String.eqb provider "aws"
  | EvCivoGetAccessCredentials _ _
  | EvCivoDeleteAccessCredentials _ _
  | EvCivoCreateStorageBucket _ _ _ => String.eqb provider "civo"
  | EvNewDigitalocean | EvDoCreateSpaceBucket _ _ => String.eqb provider "digitalocean"
  | EvNewVultr
  | EvVultrCreateObjectStorage _ _
  | EvVultrCreateObjectStorageBucket _ _ => String.eqb provider "vultr"
  end.

(** A store call about the cluster [n], writing one of [fields] if it is
    an update; any provider call. *)
Definition store_call_about (n : string) (fields : list string) (ev : Event) : bool :=
  match ev with
  | EvGetCluster m => String.eqb m n
  | EvUpdateCluster m field _ =>
      String.eqb m n && existsb (String.eqb field) fields
  | _ => true
  end.

(** The fields a step writes. *)
Definition fields_of (s : Step) : list string :=
  match s with
  | Credentials =>
      ["state_store_details"; "state_store_credentials"; "state_store_creds_check"]
  | Create => ["state_store_details"; "state_store_create_check"]
  end.

(** An invariant of the store alone. *)
Definition store_inv (R : gmap string Cluster → Prop) (w : World) : Prop :=
  R (mdb w).

(** Every record of [m] shows under [proj] what it shows in [m0]. *)
Definition projection_kept {A} (proj : Cluster → A) (m0 m : gmap string Cluster) : Prop :=
  ∀ k, proj <$> m !! k = proj <$> m0 !! k.

(** Every record of [m] but the one of [n] is as in [m0]. *)
Definition others_kept (n : string) (m0 m : gmap string Cluster) : Prop :=
  ∀ k, k = n ∨ m !! k = m0 !! k.

(** What [StateStoreCreate] leaves alone in a record, and what
    [StateStoreCredentials] leaves alone. *)
Definition credentials_part (cl : Cluster) : bool * StateStoreCredentialsT :=
  (StateStoreCredsCheck cl, StateStoreCredentials_ cl).

Definition untouched_by (s : Step) (cl : Cluster) : bool * option StateStoreCredentialsT :=
  match s with
  | Credentials => (StateStoreCreateCheck cl, None)
  | Create => (StateStoreCredsCheck cl, Some (StateStoreCredentials_ cl))
  end.

(** [c] occurs in [s]. *)
Fixpoint contains_char (c : ascii) (s : string) : bool :=
  match s with
  | EmptyString => false
  | String c' rest => Ascii.eqb c' c || contains_char c rest
  end.

(** Collaborators that never fail and answer the aws calls with the
    locations [stateLocation] and [artifactsLocation], a nil pointer for
    [None]. *)
Definition scripted_aws (stateLocation artifactsLocation : option string) : Collaborators :=
  mkCollaborators
    (λ _ _, None)
    (λ _ _ _ _, None)
    (λ t _, (Some (mkCreateBucketOutput
                     (if Nat.leb (List.length t) 1 then stateLocation else artifactsLocation)),
             None))
    (λ _ _ _, (complete_creds, None))
    (λ _ _ _, None)
    (λ _ _ bucket _, (mkObjectStore bucket "bucket-id", None))
    (λ _ _ _, None)
    (λ _ _ storeName,
       (mkObjectStorage "store-1" storeName "VK1" "VS1" "ewr1.vultrobjects.com", None))
    (λ t _ _, if Nat.leb (List.length t) 3 then Some timeout_error else None)
    no_environment.

(** The lookup of [demo] fails. *)
Definition unreachable_store : Collaborators :=
  mkCollaborators
    (λ _ _, Some timeout_error)
    (λ _ _ _ _, None)
    (λ _ _, (None, None))
    (λ _ _ _, (zero_creds, None))
    (λ _ _ _, None)
    (λ _ _ _ _, (mkObjectStore "" "", None))
    (λ _ _ _, None)
    (λ _ _ _, (mkObjectStorage "" "" "" "" "", None))
    (λ _ _ _, None)
    no_environment.

(** The update of [state_store_creds_check] fails, and nothing else. *)
Definition checkpoint_write_fails : Collaborators :=
  mkCollaborators
    (λ _ _, None)
    (λ _ _ field _,
       if String.eqb field "state_store_creds_check" then Some timeout_error else None)
    (λ _ bucket, (Some (mkCreateBucketOutput (Some ("/" +:+ bucket))), None))
    (λ _ _ _, (complete_creds, None))
    (λ _ _ _, None)
    (λ _ _ bucket _, (mkObjectStore bucket "bucket-id", None))
    (λ _ _ _, None)
    (λ _ _ storeName,
       (mkObjectStorage "store-1" storeName "VK1" "VS1" "ewr1.vultrobjects.com", None))
    (λ _ _ _, None)
    no_environment.

Lemma calls_between_app w w' evs :
  trace w' = trace w ++ evs → calls_between w w' = evs.
Proof. unfold calls_between. intros ->. by rewrite drop_app_length. Qed.

(** Unfolds a step down to the answers of the collaborators. *)
Ltac unfold_step :=
  unfold StateStoreCredentials, StateStoreCreate, credentials_switch,
    credentials_aws, credentials_civo, credentials_digitalocean, credentials_vultr,
    MdbCl_GetCluster, MdbCl_UpdateCluster, ask, emit, check, throw, panic, deref,
    log_Info, set_mdb, set_DigitaloceanStateStoreBucketName,
    set_VultrStateStoreBucketHostname, returned, record_after,
    mbind, M_bind, mret, M_ret in *.

(** Case analysis on an answer (an option, a boolean or a pair) that is
    scrutinised in the goal and is not itself a case analysis. *)
Ltac case_answer :=
  match goal with
  | |- context [match ?x with _ => _ end] =>
      lazymatch x with
      | context [match _ with _ => _ end] => fail
      | _ =>
          lazymatch type of x with
          | option _ => idtac
          | bool => idtac
          | prod _ _ => idtac
          end;
          destruct x eqn:?
      end
  end.

Local Arguments String.eqb : simpl nomatch.
Local Arguments Sprintf : simpl nomatch.
Local Arguments civoCredsFailureMessage : simpl never.
Local Arguments ReplaceAll : simpl never.
Local Arguments Error : simpl never.

(** C1. A record whose [StateStoreCredsCheck] is already true makes
    [StateStoreCredentials] return [nil] after the lookup alone: no call
    into a provider package, no field update, and the store as it was. *)
Theorem StateStoreCredentials_skip (E : Collaborators) (clctrl : ClusterController) (w : World) (cl : Cluster) :
  getClusterFault E (trace w) (ClusterName clctrl) = None →
  mdb w !! ClusterName clctrl = Some cl →
  StateStoreCredsCheck cl = true →
  let r := StateStoreCredentials E clctrl w in
  returned r = Some None
  ∧ calls_between w r.2 = [EvGetCluster (ClusterName clctrl)]
  ∧ filter (λ ev, is_adapter_call ev) (calls_between w r.2) = []
  ∧ filter (λ ev, is_update ev) (calls_between w r.2) = []
  ∧ mdb r.2 = mdb w.
Proof.
  intros Hfault Hget Hcheck r.
  assert (Hr : r = (Ok tt, mkWorld (mdb w) (trace w ++ [EvGetCluster (ClusterName clctrl)])
                             (logs w) (DigitaloceanStateStoreBucketName w)
                             (VultrStateStoreBucketHostname w))).
  { subst r. unfold_step. simpl. rewrite Hfault, Hget. simpl. by rewrite Hcheck. }
  rewrite Hr. unfold returned. simpl.
  rewrite (calls_between_app w _ [EvGetCluster (ClusterName clctrl)]) by done.
  done.
Qed.

Lemma StateStoreCredentials_skip_witness :
  let r := StateStoreCredentials (scripted complete_creds None None no_environment)
             (demo "civo") (world_with creds_done) in
  returned r = Some None
  ∧ calls_between (world_with creds_done) r.2 = [EvGetCluster "demo"]
  ∧ filter (λ ev, is_adapter_call ev) (calls_between (world_with creds_done) r.2) = []
  ∧ filter (λ ev, is_update ev) (calls_between (world_with creds_done) r.2) = []
  ∧ mdb r.2 = mdb (world_with creds_done).
Proof.
  apply (StateStoreCredentials_skip (scripted complete_creds None None no_environment)
           (demo "civo") (world_with creds_done) creds_done); reflexivity.
Defined.

(** The validator's message is the one about the first missing field. *)
Lemma civoCredsFailureMessage_first_missing (creds : ObjectStoreCredential) :
  civoCredsFailureMessage creds =
    match first_missing_field creds with
    | Some field => missing_field_message field
    | None => ""
    end.
Proof.
  unfold civoCredsFailureMessage, first_missing_field, civo_required_fields.
  simpl. repeat case_match; by simplify_eq/=.
Qed.

Lemma first_missing_field_name (creds : ObjectStoreCredential) (field : string) :
  first_missing_field creds = Some field →
  field ∈ ["AccessKeyID"; "ID"; "Name"; "SecretAccessKeyID"].
Proof.
  unfold first_missing_field, civo_required_fields. simpl.
  repeat case_match; intros; simplify_eq/=; set_solver.
Qed.

Lemma missing_field_message_nonempty (field : string) :
  String.eqb (missing_field_message field) "" = false.
Proof. reflexivity. Qed.

(** C4, as stated, fails: when the clean-up call fails too, the error
    returned is the one of the clean-up, which names no field.  Here the
    credentials lack their name and [DeleteAccessCredentials] times out. *)
Lemma failed_cleanup_names_no_field :
  ¬ validation_failure_names_first_missing.
Proof.
  intros Hclaim.
  destruct (Hclaim (scripted nameless None (Some timeout_error) no_environment)
              (demo "civo") fresh_world zeroCluster nameless None "Name"
              eq_refl eq_refl eq_refl eq_refl eq_refl eq_refl) as (e & He & Hname).
  vm_compute in He. injection He as <-. vm_compute in Hname. discriminate Hname.
Qed.

(** C4, amended. The civo validator checks access key, resource id,
    resource name and secret key in that order, and its message is the
    one about the first empty field: it names that field and asks for
    cluster creation to be retried.  [StateStoreCredentials] returns an
    error with that message when the clean-up call succeeds, and the
    error of the clean-up call when it does not. *)
Theorem civo_validation_names_first_missing (E : Collaborators)
    (clctrl : ClusterController) (w : World) (cl : Cluster)
    (creds : ObjectStoreCredential) (err : option error) (field : string) :
  getClusterFault E (trace w) (ClusterName clctrl) = None →
  mdb w !! ClusterName clctrl = Some cl →
  StateStoreCredsCheck cl = false →
  CloudProvider clctrl = "civo" →
  civoGetAccessCredentials E (trace w ++ [EvGetCluster (ClusterName clctrl)])
    (KubefirstStateStoreBucketName clctrl) (CloudRegion clctrl) = (creds, err) →
  first_missing_field creds = Some field →
  let deleteErr :=
    civoDeleteAccessCredentials E
      (trace w ++ [EvGetCluster (ClusterName clctrl);
                   EvCivoGetAccessCredentials
                     (KubefirstStateStoreBucketName clctrl) (CloudRegion clctrl)])
      (KubefirstStateStoreBucketName clctrl) (CloudRegion clctrl) in
  civoCredsFailureMessage creds = missing_field_message field
  ∧ field ∈ ["AccessKeyID"; "ID"; "Name"; "SecretAccessKeyID"]
  ∧ returned (StateStoreCredentials E clctrl w)
    = Some (Some (match deleteErr with
                  | Some e => e
                  | None => Errorf (missing_field_message field) []
                  end))
  ∧ Error (Errorf (missing_field_message field) []) = missing_field_message field
  ∧ occurs field (missing_field_message field) = true
  ∧ occurs "please retry your cluster creation" (missing_field_message field) = true.
Proof.
  intros Hfault Hget Hcheck Hprov Hcreds Hfield deleteErr. subst deleteErr.
  pose proof (civoCredsFailureMessage_first_missing creds) as Hmsg.
  rewrite Hfield in Hmsg.
  pose proof (first_missing_field_name creds field Hfield) as Hname.
  split; [done|]. split; [done|]. split.
  - destruct clctrl; simpl in *; subst. unfold_step. simpl.
    rewrite Hfault, Hget. simpl. rewrite Hcheck. simpl. rewrite Hcreds.
    rewrite Hmsg, missing_field_message_nonempty.
    destruct err; simpl; rewrite <- !app_assoc; simpl; by case_answer.
  - repeat (apply elem_of_cons in Hname as [->|Hname]; [by vm_compute|]).
    by apply elem_of_nil in Hname.
Qed.

Lemma civo_validation_names_first_missing_witness :
  let E := scripted nameless None None no_environment in
  let clctrl := demo "civo" in
  let deleteErr :=
    civoDeleteAccessCredentials E
      (trace fresh_world
       ++ [EvGetCluster (ClusterName clctrl);
           EvCivoGetAccessCredentials
             (KubefirstStateStoreBucketName clctrl) (CloudRegion clctrl)])
      (KubefirstStateStoreBucketName clctrl) (CloudRegion clctrl) in
  civoCredsFailureMessage nameless = missing_field_message "Name"
  ∧ "Name" ∈ ["AccessKeyID"; "ID"; "Name"; "SecretAccessKeyID"]
  ∧ returned (StateStoreCredentials E clctrl fresh_world)
    = Some (Some (match deleteErr with
                  | Some e => e
                  | None => Errorf (missing_field_message "Name") []
                  end))
  ∧ Error (Errorf (missing_field_message "Name") []) = missing_field_message "Name"
  ∧ occurs "Name" (missing_field_message "Name") = true
  ∧ occurs "please retry your cluster creation" (missing_field_message "Name") = true.
Proof.
  exact (civo_validation_names_first_missing
           (scripted nameless None None no_environment)
           (demo "civo") fresh_world zeroCluster nameless None "Name"
           eq_refl eq_refl eq_refl eq_refl eq_refl eq_refl).
Defined.

(** C5. When the civo validation fails, the step makes one
    [DeleteAccessCredentials] call and then returns, the store untouched:
    the error of that call if it failed, and the validation message only
    if it succeeded. *)
Theorem civo_validation_failure_compensates (E : Collaborators)
    (clctrl : ClusterController) (w : World) (cl : Cluster)
    (creds : ObjectStoreCredential) (err : option error) :
  getClusterFault E (trace w) (ClusterName clctrl) = None →
  mdb w !! ClusterName clctrl = Some cl →
  StateStoreCredsCheck cl = false →
  CloudProvider clctrl = "civo" →
  civoGetAccessCredentials E (trace w ++ [EvGetCluster (ClusterName clctrl)])
    (KubefirstStateStoreBucketName clctrl) (CloudRegion clctrl) = (creds, err) →
  civoCredsFailureMessage creds ≠ "" →
  let r := StateStoreCredentials E clctrl w in
  let compensation :=
    EvCivoDeleteAccessCredentials (KubefirstStateStoreBucketName clctrl) (CloudRegion clctrl) in
  let deleteErr :=
    civoDeleteAccessCredentials E
      (trace w ++ [EvGetCluster (ClusterName clctrl);
                   EvCivoGetAccessCredentials
                     (KubefirstStateStoreBucketName clctrl) (CloudRegion clctrl)])
      (KubefirstStateStoreBucketName clctrl) (CloudRegion clctrl) in
  calls_between w r.2
  = [EvGetCluster (ClusterName clctrl);
     EvCivoGetAccessCredentials (KubefirstStateStoreBucketName clctrl) (CloudRegion clctrl);
     compensation]
  ∧ returned r
    = Some (Some (match deleteErr with
                  | Some e => e
                  | None => Errorf (civoCredsFailureMessage creds) []
                  end))
  ∧ mdb r.2 = mdb w.
Proof.
  intros Hfault Hget Hcheck Hprov Hcreds Hmsg r compensation deleteErr.
  apply String.eqb_neq in Hmsg.
  subst r compensation deleteErr.
  destruct clctrl; simpl in *; subst. unfold_step. simpl.
  rewrite Hfault, Hget. simpl. rewrite Hcheck. simpl. rewrite Hcreds, Hmsg.
  destruct err; simpl; rewrite <- !app_assoc; simpl;
    case_answer; simpl; (split; [by apply calls_between_app|done]).
Qed.

Lemma civo_validation_failure_compensates_witness :
  let E := scripted nameless None (Some timeout_error) no_environment in
  let r := StateStoreCredentials E (demo "civo") fresh_world in
  calls_between fresh_world r.2
  = [EvGetCluster "demo";
     EvCivoGetAccessCredentials "k1-state-store-demo" "nyc1";
     EvCivoDeleteAccessCredentials "k1-state-store-demo" "nyc1"]
  ∧ returned r = Some (Some timeout_error)
  ∧ mdb r.2 = mdb fresh_world.
Proof.
  apply (civo_validation_failure_compensates
           (scripted nameless None (Some timeout_error) no_environment)
           (demo "civo") fresh_world zeroCluster nameless None);
    first [reflexivity | discriminate].
Defined.

(** C9. For a provider other than civo, [StateStoreCreate] returns [nil]
    after the lookup alone: no call into a provider package, no field
    update, the store as it was, so [state_store_create_check] is not set
    by it. *)
Theorem StateStoreCreate_other_providers (E : Collaborators)
    (clctrl : ClusterController) (w : World) (cl : Cluster) :
  getClusterFault E (trace w) (ClusterName clctrl) = None →
  mdb w !! ClusterName clctrl = Some cl →
  CloudProvider clctrl ≠ "civo" →
  let r := StateStoreCreate E clctrl w in
  returned r = Some None
  ∧ calls_between w r.2 = [EvGetCluster (ClusterName clctrl)]
  ∧ filter (λ ev, is_adapter_call ev) (calls_between w r.2) = []
  ∧ filter (λ ev, is_update ev) (calls_between w r.2) = []
  ∧ mdb r.2 = mdb w.
Proof.
  intros Hfault Hget Hprov r.
  apply String.eqb_neq in Hprov.
  assert (Hr : r = (Ok tt, mkWorld (mdb w) (trace w ++ [EvGetCluster (ClusterName clctrl)])
                             (logs w) (DigitaloceanStateStoreBucketName w)
                             (VultrStateStoreBucketHostname w))).
  { subst r. unfold_step. simpl. rewrite Hfault, Hget. simpl.
    rewrite Hprov. by destruct (StateStoreCreateCheck cl). }
  rewrite Hr. unfold returned. simpl.
  rewrite (calls_between_app w _ [EvGetCluster (ClusterName clctrl)]) by done.
  done.
Qed.

Lemma StateStoreCreate_other_providers_witness :
  let E := scripted complete_creds None None no_environment in
  let r := StateStoreCreate E (demo "aws") fresh_world in
  returned r = Some None
  ∧ calls_between fresh_world r.2 = [EvGetCluster "demo"]
  ∧ filter (λ ev, is_adapter_call ev) (calls_between fresh_world r.2) = []
  ∧ filter (λ ev, is_update ev) (calls_between fresh_world r.2) = []
  ∧ mdb r.2 = mdb fresh_world.
Proof.
  apply (StateStoreCreate_other_providers
           (scripted complete_creds None None no_environment)
           (demo "aws") fresh_world zeroCluster);
    first [reflexivity | discriminate].
Defined.

(** C7, as stated, fails: with collaborators that never fail, a civo
    record without an access key gets its bucket created and [nil] comes
    back. *)
Lemma create_without_access_key_provisions :
  ¬ create_fails_fast_without_access_key.
Proof.
  intros Hclaim.
  destruct (Hclaim (scripted complete_creds None None no_environment)
              (demo "civo") fresh_world zeroCluster
              eq_refl eq_refl eq_refl eq_refl eq_refl) as [[e He] _].
  vm_compute in He. discriminate He.
Qed.

(** C7, amended. On a civo record not yet checkpointed whose stored
    access key is empty, [StateStoreCreate] does not stop: its next call
    is [CreateStorageBucket] with the empty access key.  If that call
    fails, its error is returned and the store is untouched; if not, the
    step goes on to persist the bucket it was given. *)
Theorem StateStoreCreate_uses_stored_access_key (E : Collaborators)
    (clctrl : ClusterController) (w : World) (cl : Cluster)
    (bucket : ObjectStore) (err : option error) :
  getClusterFault E (trace w) (ClusterName clctrl) = None →
  mdb w !! ClusterName clctrl = Some cl →
  CloudProvider clctrl = "civo" →
  StateStoreCreateCheck cl = false →
  AccessKeyID (StateStoreCredentials_ cl) = "" →
  civoCreateStorageBucket E (trace w ++ [EvGetCluster (ClusterName clctrl)])
    "" (KubefirstStateStoreBucketName clctrl) (CloudRegion clctrl) = (bucket, err) →
  let r := StateStoreCreate E clctrl w in
  let creation :=
    EvCivoCreateStorageBucket ""
      (KubefirstStateStoreBucketName clctrl) (CloudRegion clctrl) in
  match err with
  | Some e =>
      returned r = Some (Some e)
      ∧ calls_between w r.2 = [EvGetCluster (ClusterName clctrl); creation]
      ∧ mdb r.2 = mdb w
  | None =>
      take 3 (calls_between w r.2)
      = [EvGetCluster (ClusterName clctrl); creation;
         EvUpdateCluster (ClusterName clctrl) "state_store_details"
           (VDetails (mkStateStoreDetails "" "" (bucketName bucket) (bucketID bucket) ""))]
  end.
Proof.
  intros Hfault Hget Hprov Hcheck Hkey Hbucket r creation.
  subst r creation.
  destruct clctrl; simpl in *; subst. unfold_step. simpl.
  rewrite Hfault, Hget. simpl. rewrite Hcheck, Hkey. simpl. rewrite Hbucket.
  destruct err; simpl; rewrite <- ?app_assoc; simpl.
  - split; [done|]. split; [by apply calls_between_app|done].
  - rewrite Hget.
    repeat (case_answer; simpl; rewrite <- ?app_assoc; simpl);
      (erewrite calls_between_app; [|simpl; reflexivity]); done.
Qed.

Lemma StateStoreCreate_uses_stored_access_key_witness :
  let E := scripted complete_creds None None no_environment in
  let r := StateStoreCreate E (demo "civo") fresh_world in
  take 3 (calls_between fresh_world r.2)
  = [EvGetCluster "demo";
     EvCivoCreateStorageBucket "" "k1-state-store-demo" "nyc1";
     EvUpdateCluster "demo" "state_store_details"
       (VDetails (mkStateStoreDetails "" "" "k1-state-store-demo" "bucket-id" ""))].
Proof.
  apply (StateStoreCreate_uses_stored_access_key
           (scripted complete_creds None None no_environment)
           (demo "civo") fresh_world zeroCluster
           (mkObjectStore "k1-state-store-demo" "bucket-id") None);
    reflexivity.
Defined.

(** ** Rules for [preserves] *)

Section Preserves.

Context {A B : Type} (I : World → Prop).

Lemma preserves_ret (a : A) : preserves I (mret a).
Proof. by intros w. Qed.

Lemma preserves_throw (e : error) : preserves I (@throw A e).
Proof. by intros w. Qed.

Lemma preserves_panic : preserves I (@panic A).
Proof. by intros w. Qed.

Lemma preserves_deref (p : option A) : preserves I (deref p).
Proof. destruct p; by intros w. Qed.

Lemma preserves_bind (m : M A) (k : A → M B) :
  preserves I m → (∀ a, preserves I (k a)) → preserves I (m ≫= k).
Proof.
  intros Hm Hk w HI. specialize (Hm w HI).
  unfold mbind, M_bind. destruct (m w) as [[a|e|] w']; simpl in *; [|done..].
  by apply Hk.
Qed.

End Preserves.

Lemma preserves_check (I : World → Prop) (err : option error) : preserves I (check err).
Proof. destruct err; by intros w. Qed.

(** *** Calls made since a world *)

Section CallsSince.

Variable E : Collaborators.
Variable P : Event → bool.
Variable w0 : World.

Lemma calls_since_refl : calls_since P w0 w0.
Proof. exists []. by rewrite app_nil_r. Qed.

Lemma calls_since_snoc (w w' : World) (ev : Event) :
  P ev = true → trace w' = trace w ++ [ev] → calls_since P w0 w → calls_since P w0 w'.
Proof.
  intros Hev Hw' (evs & Htr & Hall). exists (evs ++ [ev]).
  rewrite Hw', Htr, <- app_assoc. split; [done|].
  apply Forall_app. split; [done|]. by constructor.
Qed.

Lemma calls_since_same (w w' : World) :
  trace w' = trace w → calls_since P w0 w → calls_since P w0 w'.
Proof. intros Hw' (evs & Htr & Hall). exists evs. by rewrite Hw'. Qed.

Lemma calls_ask {A} (ev : Event) (answer : list Event → A) :
  P ev = true → preserves (calls_since P w0) (ask ev answer).
Proof. intros Hev w. by apply calls_since_snoc with ev. Qed.

Lemma calls_emit (ev : Event) :
  P ev = true → preserves (calls_since P w0) (emit ev).
Proof. intros Hev w. by apply calls_since_snoc with ev. Qed.

Lemma calls_log_Info (msg : string) : preserves (calls_since P w0) (log_Info msg).
Proof. intros w. by apply calls_since_same. Qed.

Lemma calls_set_Digitalocean (s : string) :
  preserves (calls_since P w0) (set_DigitaloceanStateStoreBucketName s).
Proof. intros w. by apply calls_since_same. Qed.

Lemma calls_set_Vultr (s : string) :
  preserves (calls_since P w0) (set_VultrStateStoreBucketHostname s).
Proof. intros w. by apply calls_since_same. Qed.

Lemma calls_GetCluster (clusterName : string) :
  P (EvGetCluster clusterName) = true →
  preserves (calls_since P w0) (MdbCl_GetCluster E clusterName).
Proof.
  intros Hev. unfold MdbCl_GetCluster. apply preserves_bind; [by intros w|].
  intros w. by apply calls_ask.
Qed.

Lemma calls_UpdateCluster (clusterName field : string) (value : FieldValue) :
  P (EvUpdateCluster clusterName field value) = true →
  preserves (calls_since P w0) (MdbCl_UpdateCluster E clusterName field value).
Proof.
  intros Hev w. apply calls_since_snoc with (EvUpdateCluster clusterName field value); [done|].
  unfold_step. simpl. by repeat case_answer.
Qed.

End CallsSince.

(** *** Flags kept since a world *)

Section FlagsSince.

Variable E : Collaborators.
Variable w0 : World.

Lemma flags_since_refl : flags_since w0 w0.
Proof.
  intros n. unfold flags_kept. destruct (mdb w0 !! n) as [[[] [] ? ?]|]; done.
Qed.

Lemma flags_ask {A} (ev : Event) (answer : list Event → A) :
  preserves (flags_since w0) (ask ev answer).
Proof. by intros w. Qed.

Lemma flags_emit (ev : Event) : preserves (flags_since w0) (emit ev).
Proof. by intros w. Qed.

Lemma flags_log_Info (msg : string) : preserves (flags_since w0) (log_Info msg).
Proof. by intros w. Qed.

Lemma flags_set_Digitalocean (s : string) :
  preserves (flags_since w0) (set_DigitaloceanStateStoreBucketName s).
Proof. by intros w. Qed.

Lemma flags_set_Vultr (s : string) :
  preserves (flags_since w0) (set_VultrStateStoreBucketHostname s).
Proof. by intros w. Qed.

Lemma flags_GetCluster (clusterName : string) :
  preserves (flags_since w0) (MdbCl_GetCluster E clusterName).
Proof. by intros w. Qed.

Lemma apply_field_flags (field : string) (value : FieldValue) (cl : Cluster) :
  checkpoint_write_is_true (EvUpdateCluster "" field value) = true →
  implb (StateStoreCredsCheck cl) (StateStoreCredsCheck (apply_field field value cl))
  && implb (StateStoreCreateCheck cl) (StateStoreCreateCheck (apply_field field value cl))
  = true.
Proof.
  unfold checkpoint_write_is_true, apply_field.
  destruct cl as [[] [] ? ?], value as [d|c|[]]; simpl;
    repeat case_match; simpl; try done; simpl in *; congruence.
Qed.

Lemma flags_UpdateCluster (clusterName field : string) (value : FieldValue) :
  checkpoint_write_is_true (EvUpdateCluster clusterName field value) = true →
  preserves (flags_since w0) (MdbCl_UpdateCluster E clusterName field value).
Proof.
  intros Hev w Hflags n. specialize (Hflags n).
  assert (Hmdb : mdb (MdbCl_UpdateCluster E clusterName field value w).2 = mdb w
                 ∨ mdb (MdbCl_UpdateCluster E clusterName field value w).2
                   = alter (apply_field field value) clusterName (mdb w)).
  { unfold_step. simpl. repeat case_answer; simpl; auto. }
  destruct Hmdb as [-> | ->]; [done|].
  rewrite lookup_alter. case_decide as Hn; [subst n|done].
  unfold flags_kept in *.
  destruct (mdb w0 !! clusterName) as [cl0|], (mdb w !! clusterName) as [cl1|];
    simpl in *; try done.
  pose proof (apply_field_flags field value cl1 Hev) as Hstep.
  destruct (StateStoreCredsCheck cl0), (StateStoreCreateCheck cl0),
    (StateStoreCredsCheck cl1), (StateStoreCreateCheck cl1); simpl in *; try done;
    apply andb_true_iff in Hstep as [Hcreds Hcreate]; by rewrite ?Hcreds, ?Hcreate.
Qed.

End FlagsSince.

Create HintDb step_rules.

#[local] Hint Resolve preserves_ret preserves_throw preserves_panic preserves_deref
  preserves_check calls_log_Info calls_set_Digitalocean calls_set_Vultr
  flags_ask flags_emit flags_log_Info flags_set_Digitalocean flags_set_Vultr
  flags_GetCluster : step_rules.
#[local] Hint Extern 1 (preserves (calls_since _ _) (ask _ _)) =>
  apply calls_ask; reflexivity : step_rules.
#[local] Hint Extern 1 (preserves (calls_since _ _) (emit _)) =>
  apply calls_emit; reflexivity : step_rules.
#[local] Hint Extern 1 (preserves (calls_since _ _) (MdbCl_GetCluster _ _)) =>
  apply calls_GetCluster; reflexivity : step_rules.
#[local] Hint Extern 1 (preserves (calls_since _ _) (MdbCl_UpdateCluster _ _ _ _)) =>
  apply calls_UpdateCluster; reflexivity : step_rules.
#[local] Hint Extern 1 (preserves (flags_since _) (MdbCl_UpdateCluster _ _ _ _)) =>
  apply flags_UpdateCluster; reflexivity : step_rules.

(** Walks through a step: a bind by its two parts, a case analysis by
    its cases, a call by its rule. *)
Ltac walk_step :=
  repeat first
    [ progress intros
    | solve [auto with step_rules]
    | apply preserves_bind
    | match goal with
      | |- preserves _ (match ?x with _ => _ end) => destruct x
      | |- preserves _ (if ?x then _ else _) => destruct x
      end ].

Ltac unfold_branches :=
  unfold run, StateStoreCredentials, StateStoreCreate, credentials_switch,
    credentials_aws, credentials_civo, credentials_digitalocean, credentials_vultr.

Lemma run_writes_true (s : Step) (E : Collaborators) (clctrl : ClusterController)
    (w0 : World) :
  preserves (calls_since checkpoint_write_is_true w0) (run s E clctrl).
Proof. destruct s; unfold_branches; walk_step. Qed.

Lemma run_keeps_flags (s : Step) (E : Collaborators) (clctrl : ClusterController)
    (w0 : World) :
  preserves (flags_since w0) (run s E clctrl).
Proof. destruct s; unfold_branches; walk_step. Qed.

(** C8. Whatever the collaborators answer, each of the two steps writes
    only [true] to [state_store_creds_check] and
    [state_store_create_check], and leaves no flag of any record that was
    true false. *)
Theorem checkpoint_flags_monotone (E : Collaborators) (clctrl : ClusterController)
    (w : World) (s : Step) :
  let after := (run s E clctrl w).2 in
  Forall (λ ev, checkpoint_write_is_true ev = true) (calls_between w after)
  ∧ ∀ n, flags_kept (mdb w !! n) (mdb after !! n) = true.
Proof.
  intros after.
  destruct (run_writes_true s E clctrl w w (calls_since_refl _ w)) as (evs & Htr & Hall).
  pose proof (run_keeps_flags s E clctrl w w (flags_since_refl w)) as Hflags.
  subst after. by rewrite (calls_between_app _ _ _ Htr).
Qed.

(** ** Following the paths of a step *)

Lemma calls_between_mk (w : World) m (evs : list Event) l d v :
  calls_between w (mkWorld m (trace w ++ evs) l d v) = evs.
Proof. by apply calls_between_app. Qed.

(** Follows a step through the answers of the collaborators, using the
    record [Hget] found by the lookup. *)
Ltac follow_paths Hget :=
  repeat (simpl; rewrite ?lookup_alter_eq, ?Hget; simpl;
          rewrite <- ?app_assoc; simpl; try case_answer).

Lemma digitalocean_calls (E : Collaborators) (clctrl : ClusterController) (w0 : World) :
  CloudProvider clctrl = "digitalocean" →
  preserves (calls_since endpoint_is_nyc3 w0) (StateStoreCredentials E clctrl).
Proof.
  intros Hprov. destruct clctrl; simpl in *; subst.
  unfold_branches. simpl. walk_step.
Qed.

(** C10. In the digitalocean branch of [StateStoreCredentials] the
    bucket is created with the endpoint [nyc3.digitaloceanspaces.com],
    and that endpoint is the [Hostname] of every [state_store_details]
    the step persists, whatever the region of the cluster; after a
    successful run it is the host name in the record. *)
Theorem digitalocean_endpoint_fixed (E : Collaborators)
    (clctrl : ClusterController) (w : World) (cl : Cluster) :
  CloudProvider clctrl = "digitalocean" →
  getClusterFault E (trace w) (ClusterName clctrl) = None →
  mdb w !! ClusterName clctrl = Some cl →
  StateStoreCredsCheck cl = false →
  let r := StateStoreCredentials E clctrl w in
  take 3 (calls_between w r.2)
  = [EvGetCluster (ClusterName clctrl);
     EvNewDigitalocean;
     EvDoCreateSpaceBucket
       (mkDigitaloceanSpacesCredentials
          (Getenv E "DO_SPACES_KEY") (Getenv E "DO_SPACES_SECRET")
          "nyc3.digitaloceanspaces.com")
       (KubefirstStateStoreBucketName clctrl)]
  ∧ Forall (λ ev, endpoint_is_nyc3 ev = true) (calls_between w r.2)
  ∧ match returned r with
    | Some None =>
        ∃ cl', record_after r (ClusterName clctrl) = Some cl'
               ∧ Hostname (StateStoreDetails_ cl') = "nyc3.digitaloceanspaces.com"
               ∧ DigitaloceanStateStoreBucketName r.2 = "nyc3.digitaloceanspaces.com"
    | _ => True
    end.
Proof.
  intros Hprov Hfault Hget Hcheck r.
  assert (Hcalls : Forall (λ ev, endpoint_is_nyc3 ev = true) (calls_between w r.2)).
  { destruct (digitalocean_calls E clctrl w Hprov w (calls_since_refl _ w))
      as (evs & Htr & Hall).
    subst r. by rewrite (calls_between_app _ _ _ Htr). }
  split; [|split; [done|]]; clear Hcalls; subst r;
    destruct clctrl; simpl in *; subst; unfold_step; simpl;
    rewrite Hfault, Hget; simpl; rewrite Hcheck.
  - follow_paths Hget; by rewrite calls_between_mk.
  - follow_paths Hget; try done. eexists. split; [reflexivity|]. done.
Qed.

Lemma digitalocean_endpoint_fixed_witness :
  let E := scripted complete_creds None None no_environment in
  let clctrl := demo "digitalocean" in
  let r := StateStoreCredentials E clctrl fresh_world in
  take 3 (calls_between fresh_world r.2)
  = [EvGetCluster (ClusterName clctrl);
     EvNewDigitalocean;
     EvDoCreateSpaceBucket
       (mkDigitaloceanSpacesCredentials
          (Getenv E "DO_SPACES_KEY") (Getenv E "DO_SPACES_SECRET")
          "nyc3.digitaloceanspaces.com")
       (KubefirstStateStoreBucketName clctrl)]
  ∧ Forall (λ ev, endpoint_is_nyc3 ev = true) (calls_between fresh_world r.2)
  ∧ match returned r with
    | Some None =>
        ∃ cl', record_after r (ClusterName clctrl) = Some cl'
               ∧ Hostname (StateStoreDetails_ cl') = "nyc3.digitaloceanspaces.com"
               ∧ DigitaloceanStateStoreBucketName r.2 = "nyc3.digitaloceanspaces.com"
    | _ => True
    end.
Proof.
  exact (digitalocean_endpoint_fixed
           (scripted complete_creds None None no_environment)
           (demo "digitalocean") fresh_world zeroCluster
           eq_refl eq_refl eq_refl eq_refl).
Defined.

(** Follows a step through every answer, the lookup included. *)
Ltac follow_all_paths :=
  repeat (simpl; rewrite ?lookup_alter_eq; simpl;
          try match goal with
              | H : mdb ?w !! ?n = _ |- context [mdb ?w !! ?n] => rewrite H
              end;
          simpl; rewrite <- ?app_assoc; simpl; rewrite ?calls_between_mk; simpl;
          try case_answer).

(** Splits a list of calls given in full before its last two. *)
Ltac split_last_two :=
  lazymatch goal with
  | |- ∃ pre, ∃ _, ∃ _, ∃ _, ?l = _ ∧ _ => exists (take (length l - 2) l)
  end; simpl.

(** C2. A run of either step that returns [nil] and did more than look
    the record up ends with two writes: the data field of the step, then
    its checkpoint flag, set to [true].  No call before them writes a
    checkpoint flag and none follows; the flag was false in the record
    before the run, and after it the record has the flag and the data
    written just before. *)
Theorem checkpoint_write_is_last (E : Collaborators) (s : Step)
    (clctrl : ClusterController) (w : World) :
  let r := run s E clctrl w in
  returned r = Some None →
  existsb is_provisioning (calls_between w r.2) = true →
  ∃ pre value cl cl',
    calls_between w r.2
    = pre ++ [EvUpdateCluster (ClusterName clctrl) (data_field s) value;
              EvUpdateCluster (ClusterName clctrl) (checkpoint_field s) (VBool true)]
    ∧ Forall (λ ev, is_checkpoint_update ev = false) pre
    ∧ mdb w !! ClusterName clctrl = Some cl
    ∧ checkpoint_of s cl = false
    ∧ record_after r (ClusterName clctrl) = Some cl'
    ∧ checkpoint_of s cl' = true
    ∧ apply_field (data_field s) value cl' = cl'.
Proof.
  intros r. subst r. destruct s; unfold run; unfold_step; simpl.
  all: follow_all_paths; intros Hnil Hwork; try done.
  all: split_last_two; eexists _, _, _.
  all: repeat split; simpl; try done; try (by apply negb_true_iff).
  all: by repeat constructor.
Qed.

Lemma checkpoint_write_is_last_witness :
  let E := scripted complete_creds None None no_environment in
  let clctrl := demo "civo" in
  let r := run Credentials E clctrl fresh_world in
  ∃ pre value cl cl',
    calls_between fresh_world r.2
    = pre ++ [EvUpdateCluster (ClusterName clctrl) (data_field Credentials) value;
              EvUpdateCluster (ClusterName clctrl) (checkpoint_field Credentials)
                (VBool true)]
    ∧ Forall (λ ev, is_checkpoint_update ev = false) pre
    ∧ mdb fresh_world !! ClusterName clctrl = Some cl
    ∧ checkpoint_of Credentials cl = false
    ∧ record_after r (ClusterName clctrl) = Some cl'
    ∧ checkpoint_of Credentials cl' = true
    ∧ apply_field (data_field Credentials) value cl' = cl'.
Proof.
  exact (checkpoint_write_is_last
           (scripted complete_creds None None no_environment)
           Credentials (demo "civo") fresh_world eq_refl eq_refl).
Defined.

(** ** What the checkpoint says about the credentials *)

Lemma civoCredsFailureMessage_empty (creds : ObjectStoreCredential) :
  String.eqb (civoCredsFailureMessage creds) "" = true →
  civoAccessKeyID creds ≠ "" ∧ civoID creds ≠ ""
  ∧ civoName creds ≠ "" ∧ civoSecretAccessKeyID creds ≠ "".
Proof.
  unfold civoCredsFailureMessage.
  destruct (String.eqb_spec (civoAccessKeyID creds) ""); [done|].
  destruct (String.eqb_spec (civoID creds) ""); [done|].
  destruct (String.eqb_spec (civoName creds) ""); [done|].
  destruct (String.eqb_spec (civoSecretAccessKeyID creds) ""); done.
Qed.

(** C6, as stated, fails: for digitalocean the bundle is read from the
    environment and persisted unchecked, so with [DO_SPACES_KEY] unset the
    checkpoint is set over a bundle without an access key. *)
Lemma checkpoint_over_unvalidated_bundle :
  ¬ checkpoint_implies_validated_bundle.
Proof.
  intros Hclaim.
  destruct (Hclaim (scripted complete_creds None None no_environment)
              (demo "digitalocean") fresh_world zeroCluster
              (mkCluster true false
                 (mkStateStoreCredentials "" "" "k1-state-store-demo" "")
                 (mkStateStoreDetails "" "" "k1-state-store-demo" ""
                    "nyc3.digitaloceanspaces.com"))
              eq_refl eq_refl eq_refl eq_refl) as [Hkey _].
  by apply Hkey.
Qed.

(** The same happens for aws, whose bundle is copied from the controller,
    for vultr, whose bundle is copied from the object storage created,
    and for a provider the [switch] has no case for. *)
Example unvalidated_bundle_elsewhere :
  let E := scripted complete_creds None None no_environment in
  Forall (λ provider,
            (λ cl, (StateStoreCredsCheck cl, AccessKeyID (StateStoreCredentials_ cl)))
              <$> record_after (StateStoreCredentials E (demo provider) fresh_world) "demo"
            = Some (true, ""))
    ["aws"; "vultr"; "gcp"].
Proof. repeat constructor; by vm_compute. Qed.

(** C6, amended. For civo, a run of [StateStoreCredentials] that turns
    [StateStoreCredsCheck] from false to true leaves in the record the
    bundle made of the credentials [GetAccessCredentials] answered, and
    its access key, secret key, name and id are all non-empty. *)
Theorem civo_checkpoint_implies_complete_bundle (E : Collaborators)
    (clctrl : ClusterController) (w : World) (cl cl' : Cluster) :
  CloudProvider clctrl = "civo" →
  mdb w !! ClusterName clctrl = Some cl →
  StateStoreCredsCheck cl = false →
  record_after (StateStoreCredentials E clctrl w) (ClusterName clctrl) = Some cl' →
  StateStoreCredsCheck cl' = true →
  let creds :=
    (civoGetAccessCredentials E (trace w ++ [EvGetCluster (ClusterName clctrl)])
       (KubefirstStateStoreBucketName clctrl) (CloudRegion clctrl)).1 in
  StateStoreCredentials_ cl'
  = mkStateStoreCredentials (civoAccessKeyID creds) (civoSecretAccessKeyID creds)
      (civoName creds) (civoID creds)
  ∧ bundle_complete (StateStoreCredentials_ cl').
Proof.
  intros Hprov Hget Hcheck Hafter Hset creds. subst creds.
  revert Hafter. destruct clctrl; simpl in *; subst. unfold_step; simpl.
  rewrite Hget. simpl.
  follow_paths Hget; intros Hafter; simplify_eq/=; try congruence.
  all: match goal with
       | H : negb (civoCredsFailureMessage ?c =? "") = false |- _ =>
           apply negb_false_iff, civoCredsFailureMessage_empty in H
             as (Hkey & Hid & Hname & Hsecret)
       end.
  all: split; [done|]; unfold bundle_complete; simpl; by repeat split.
Qed.

Lemma civo_checkpoint_implies_complete_bundle_witness :
  let E := scripted complete_creds None None no_environment in
  let clctrl := demo "civo" in
  let cl' := mkCluster true false (mkStateStoreCredentials "AK1" "SK1" "demo" "cred-1")
               zeroDetails in
  let creds :=
    (civoGetAccessCredentials E (trace fresh_world ++ [EvGetCluster (ClusterName clctrl)])
       (KubefirstStateStoreBucketName clctrl) (CloudRegion clctrl)).1 in
  StateStoreCredentials_ cl'
  = mkStateStoreCredentials (civoAccessKeyID creds) (civoSecretAccessKeyID creds)
      (civoName creds) (civoID creds)
  ∧ bundle_complete (StateStoreCredentials_ cl').
Proof.
  exact (civo_checkpoint_implies_complete_bundle
           (scripted complete_creds None None no_environment)
           (demo "civo") fresh_world zeroCluster
           (mkCluster true false (mkStateStoreCredentials "AK1" "SK1" "demo" "cred-1")
              zeroDetails)
           eq_refl eq_refl eq_refl eq_refl eq_refl).
Defined.

(** ** Errors of the provider calls *)

(** A run of [StateStoreCredentials] that does not return [nil] leaves
    the checkpoint of the record as it was. *)
Lemma failed_run_keeps_checkpoint (E : Collaborators)
    (clctrl : ClusterController) (w : World) (cl : Cluster) :
  mdb w !! ClusterName clctrl = Some cl →
  returned (StateStoreCredentials E clctrl w) ≠ Some None →
  StateStoreCredsCheck <$> record_after (StateStoreCredentials E clctrl w) (ClusterName clctrl)
  = Some (StateStoreCredsCheck cl).
Proof.
  intros Hget. unfold_step; simpl. rewrite Hget.
  follow_paths Hget; intros Hfail; try done.
  all: by destruct cl as [[] ? ? ?].
Qed.

(** The first provider call of the aws and vultr branches hands its error
    to the caller as it is; the digitalocean branch wraps it in a message
    that names the bucket. *)
Lemma first_provider_error_returned (E : Collaborators)
    (clctrl : ClusterController) (w : World) (cl : Cluster) (e : error) :
  getClusterFault E (trace w) (ClusterName clctrl) = None →
  mdb w !! ClusterName clctrl = Some cl →
  StateStoreCredsCheck cl = false →
  let t := trace w ++ [EvGetCluster (ClusterName clctrl)] in
  let r := returned (StateStoreCredentials E clctrl w) in
  (CloudProvider clctrl = "aws" →
   (awsCreateBucket E t (KubefirstStateStoreBucketName clctrl)).2 = Some e →
   r = Some (Some e))
  ∧ (CloudProvider clctrl = "vultr" →
     (vultrCreateObjectStorage E (t ++ [EvNewVultr])
        (CloudRegion clctrl) (KubefirstStateStoreBucketName clctrl)).2 = Some e →
     r = Some (Some e))
  ∧ (CloudProvider clctrl = "digitalocean" →
     doCreateSpaceBucket E (t ++ [EvNewDigitalocean])
       (mkDigitaloceanSpacesCredentials
          (Getenv E "DO_SPACES_KEY") (Getenv E "DO_SPACES_SECRET")
          "nyc3.digitaloceanspaces.com")
       (KubefirstStateStoreBucketName clctrl) = Some e →
     r = Some (Some (Errorf
                       (Sprintf "error creating spaces bucket %s: %s"
                          [KubefirstStateStoreBucketName clctrl; Error e])
                       []))).
Proof.
  intros Hfault Hget Hcheck t r. subst t r.
  repeat split; intros Hprov Herr; destruct clctrl; simpl in *; subst;
    unfold_step; simpl; rewrite Hfault, Hget; simpl; rewrite Hcheck; simpl;
    rewrite <- ?app_assoc in *; simpl in *.
  - destruct (awsCreateBucket _ _ _) as [out err]; simpl in *; by subst.
  - destruct (vultrCreateObjectStorage _ _ _ _) as [objst err]; simpl in *; by subst.
  - lazymatch goal with
    | |- context [doCreateSpaceBucket E ?t ?c ?b] =>
        replace (doCreateSpaceBucket E t c b) with (Some e) by (symmetry; exact Herr)
    end.
    done.
Qed.

(** C3. Not so for the civo [GetAccessCredentials] call, whose error is
    only logged.  If no credentials come with the error, the caller gets
    the validation message about [AccessKeyID] in its place; if complete
    credentials come with it, the step goes on, returns [nil] and sets
    the checkpoint. *)
Theorem civo_credentials_error_is_dropped :
  let lost := scripted zero_creds (Some timeout_error) None no_environment in
  let swallowed := scripted complete_creds (Some timeout_error) None no_environment in
  returned (StateStoreCredentials lost (demo "civo") fresh_world)
  = Some (Some (Errorf (missing_field_message "AccessKeyID") []))
  ∧ logs (StateStoreCredentials lost (demo "civo") fresh_world).2
    = [Error timeout_error]
  ∧ returned (StateStoreCredentials swallowed (demo "civo") fresh_world) = Some None
  ∧ StateStoreCredsCheck
      <$> record_after (StateStoreCredentials swallowed (demo "civo") fresh_world) "demo"
    = Some true.
Proof. by vm_compute. Qed.

(** ** The lookup *)

Lemma bind_run {A B} (m : M A) (k : A → M B) (w : World) :
  (m ≫= k) w
  = match m w with
    | (Ok a, w') => k a w'
    | (Fail e, w') => (Fail e, w')
    | (Panic, w') => (Panic, w')
    end.
Proof. reflexivity. Qed.

Lemma GetCluster_run (E : Collaborators) (n : string) (w : World) :
  MdbCl_GetCluster E n w
  = (Ok (match (MdbCl_GetCluster E n w).1 with
         | Ok a => a
         | _ => (zeroCluster, None)
         end),
     mkWorld (mdb w) (trace w ++ [EvGetCluster n]) (logs w)
       (DigitaloceanStateStoreBucketName w) (VultrStateStoreBucketHostname w)).
Proof. reflexivity. Qed.

(** X1. When the lookup of the record fails, either step returns the error
    of the lookup and has done nothing else: no other call, nothing
    logged, the store and the two package variables as they were. *)
Theorem lookup_error_returned (E : Collaborators) (s : Step)
    (clctrl : ClusterController) (w : World) (cl0 : Cluster) (e : error) :
  (MdbCl_GetCluster E (ClusterName clctrl) w).1 = Ok (cl0, Some e) →
  let r := run s E clctrl w in
  returned r = Some (Some e)
  ∧ calls_between w r.2 = [EvGetCluster (ClusterName clctrl)]
  ∧ mdb r.2 = mdb w
  ∧ logs r.2 = logs w
  ∧ DigitaloceanStateStoreBucketName r.2 = DigitaloceanStateStoreBucketName w
  ∧ VultrStateStoreBucketHostname r.2 = VultrStateStoreBucketHostname w.
Proof.
  intros Hlookup r. subst r.
  destruct s; unfold run, StateStoreCredentials, StateStoreCreate.
  all: rewrite bind_run, GetCluster_run, Hlookup; simpl.
  all: unfold returned; simpl; by rewrite calls_between_mk.
Qed.

Lemma lookup_error_returned_witness :
  let r := run Create unreachable_store (demo "civo") fresh_world in
  returned r = Some (Some timeout_error)
  ∧ calls_between fresh_world r.2 = [EvGetCluster (ClusterName (demo "civo"))]
  ∧ mdb r.2 = mdb fresh_world
  ∧ logs r.2 = logs fresh_world
  ∧ DigitaloceanStateStoreBucketName r.2 = DigitaloceanStateStoreBucketName fresh_world
  ∧ VultrStateStoreBucketHostname r.2 = VultrStateStoreBucketHostname fresh_world.
Proof.
  exact (lookup_error_returned unreachable_store Create (demo "civo") fresh_world
           zeroCluster timeout_error eq_refl).
Defined.

(** ** What a step leaves alone *)

Section StoreInvariants.

Variable E : Collaborators.
Variable R : gmap string Cluster → Prop.

Lemma store_ask {A} (ev : Event) (answer : list Event → A) :
  preserves (store_inv R) (ask ev answer).
Proof. by intros w. Qed.

Lemma store_emit (ev : Event) : preserves (store_inv R) (emit ev).
Proof. by intros w. Qed.

Lemma store_log_Info (msg : string) : preserves (store_inv R) (log_Info msg).
Proof. by intros w. Qed.

Lemma store_set_Digitalocean (s : string) :
  preserves (store_inv R) (set_DigitaloceanStateStoreBucketName s).
Proof. by intros w. Qed.

Lemma store_set_Vultr (s : string) :
  preserves (store_inv R) (set_VultrStateStoreBucketHostname s).
Proof. by intros w. Qed.

Lemma store_GetCluster (clusterName : string) :
  preserves (store_inv R) (MdbCl_GetCluster E clusterName).
Proof. by intros w. Qed.

Lemma store_UpdateCluster (clusterName field : string) (value : FieldValue) :
  (∀ m, R m → R (alter (apply_field field value) clusterName m)) →
  preserves (store_inv R) (MdbCl_UpdateCluster E clusterName field value).
Proof.
  intros Halter w HR. unfold store_inv in *.
  assert (Hmdb : mdb (MdbCl_UpdateCluster E clusterName field value w).2 = mdb w
                 ∨ mdb (MdbCl_UpdateCluster E clusterName field value w).2
                   = alter (apply_field field value) clusterName (mdb w)).
  { unfold_step. simpl. repeat case_answer; simpl; auto. }
  destruct Hmdb as [-> | ->]; [done|]. by apply Halter.
Qed.

End StoreInvariants.

Lemma others_kept_refl (n : string) (m0 : gmap string Cluster) : others_kept n m0 m0.
Proof. intros k. by right. Qed.

Lemma others_kept_alter (n : string) (f : Cluster → Cluster) (m0 m : gmap string Cluster) :
  others_kept n m0 m → others_kept n m0 (alter f n m).
Proof.
  intros Hm k. destruct (decide (k = n)) as [->|Hk]; [by left|].
  right. rewrite lookup_alter_ne by done. by destruct (Hm k).
Qed.

Lemma projection_kept_refl {A} (proj : Cluster → A) (m0 : gmap string Cluster) :
  projection_kept proj m0 m0.
Proof. by intros k. Qed.

Lemma projection_kept_alter {A} (proj : Cluster → A) (n : string) (f : Cluster → Cluster)
    (m0 m : gmap string Cluster) :
  (∀ cl, proj (f cl) = proj cl) →
  projection_kept proj m0 m → projection_kept proj m0 (alter f n m).
Proof.
  intros Hf Hm k. rewrite <- (Hm k), lookup_alter. case_decide; [subst k|done].
  destruct (m !! n); simpl; [|done]. by rewrite Hf.
Qed.

#[local] Hint Resolve store_ask store_emit store_log_Info store_set_Digitalocean
  store_set_Vultr store_GetCluster : step_rules.
#[local] Hint Extern 2 (preserves (calls_since _ _) (MdbCl_GetCluster _ _)) =>
  apply calls_GetCluster; simpl; rewrite ?String.eqb_refl; reflexivity : step_rules.
#[local] Hint Extern 2 (preserves (calls_since _ _) (MdbCl_UpdateCluster _ _ _ _)) =>
  apply calls_UpdateCluster; simpl; rewrite ?String.eqb_refl; reflexivity : step_rules.
#[local] Hint Extern 1 (preserves (store_inv (others_kept _ _))
                          (MdbCl_UpdateCluster _ _ _ _)) =>
  apply store_UpdateCluster; intros; by apply others_kept_alter : step_rules.
#[local] Hint Extern 1 (preserves (store_inv (projection_kept _ _))
                          (MdbCl_UpdateCluster _ _ _ _)) =>
  apply store_UpdateCluster; intros;
  apply projection_kept_alter; [by intros [? ? ? ?]|done] : step_rules.

(** X2. Whatever the collaborators answer, a step calls into the package of
    the provider of the controller and into no other: aws calls for
    [aws], civo calls for [civo], and so on; for any other provider, no
    provider call at all. *)
Theorem provider_dispatch (E : Collaborators) (s : Step)
    (clctrl : ClusterController) (w : World) :
  Forall (λ ev, belongs_to_provider (CloudProvider clctrl) ev = true)
    (calls_between w (run s E clctrl w).2).
Proof.
  assert (H : preserves (calls_since (belongs_to_provider (CloudProvider clctrl)) w)
                (run s E clctrl)).
  { destruct clctrl as [n p region bucket artifacts key secret]. simpl.
    destruct (String.eqb_spec p "aws") as [->|Haws];
      [destruct s; unfold_branches; simpl; walk_step|].
    destruct (String.eqb_spec p "civo") as [->|Hcivo];
      [destruct s; unfold_branches; simpl; walk_step|].
    destruct (String.eqb_spec p "digitalocean") as [->|Hdo];
      [destruct s; unfold_branches; simpl; walk_step|].
    destruct (String.eqb_spec p "vultr") as [->|Hvultr];
      [destruct s; unfold_branches; simpl; walk_step|].
    apply String.eqb_neq in Haws, Hcivo, Hdo, Hvultr.
    destruct s; unfold_branches; simpl; rewrite ?Haws, ?Hcivo, ?Hdo, ?Hvultr;
      walk_step. }
  destruct (H w (calls_since_refl _ w)) as (evs & Htr & Hall).
  by rewrite (calls_between_app _ _ _ Htr).
Qed.

(** X3. Whatever the collaborators answer, every store call of a step is
    about the cluster of the controller, every update writes one of the
    fields of the step ([state_store_details], [state_store_credentials],
    [state_store_creds_check] for the credentials step;
    [state_store_details], [state_store_create_check] for the create
    step), and every other record of the store is left as it was. *)
Theorem store_calls_stay_on_cluster (E : Collaborators) (s : Step)
    (clctrl : ClusterController) (w : World) :
  let after := (run s E clctrl w).2 in
  Forall (λ ev, store_call_about (ClusterName clctrl) (fields_of s) ev = true)
    (calls_between w after)
  ∧ others_kept (ClusterName clctrl) (mdb w) (mdb after).
Proof.
  intros after. subst after. split.
  - assert (H : preserves
                  (calls_since (store_call_about (ClusterName clctrl) (fields_of s)) w)
                  (run s E clctrl))
      by (destruct s; unfold_branches; walk_step).
    destruct (H w (calls_since_refl _ w)) as (evs & Htr & Hall).
    by rewrite (calls_between_app _ _ _ Htr).
  - assert (H : preserves (store_inv (others_kept (ClusterName clctrl) (mdb w)))
                  (run s E clctrl))
      by (destruct s; unfold_branches; walk_step).
    apply (H w), others_kept_refl.
Qed.

(** X4. Whatever the collaborators answer, [StateStoreCredentials] leaves
    [StateStoreCreateCheck] of every record as it was, and
    [StateStoreCreate] leaves [StateStoreCredsCheck] and the stored
    credentials of every record as they were. *)
Theorem other_step_untouched (E : Collaborators) (s : Step)
    (clctrl : ClusterController) (w : World) :
  projection_kept (untouched_by s) (mdb w) (mdb (run s E clctrl w).2).
Proof.
  assert (H : preserves (store_inv (projection_kept (untouched_by s) (mdb w)))
                (run s E clctrl))
    by (destruct s; unfold_branches; walk_step).
  apply (H w), projection_kept_refl.
Qed.

(** X5. Whatever the collaborators answer and whether the run succeeds or
    not, no call follows a write to a checkpoint flag: such a write can
    only be the last call of a run. *)
Theorem nothing_after_checkpoint_write (E : Collaborators) (s : Step)
    (clctrl : ClusterController) (w : World) :
  Forall (λ ev, is_checkpoint_update ev = false)
    (removelast (calls_between w (run s E clctrl w).2)).
Proof.
  destruct s; unfold run; unfold_step; simpl.
  all: follow_all_paths; by repeat constructor.
Qed.

(** ** Running a step again *)

Lemma nil_run_outcome (E : Collaborators) (s : Step)
    (clctrl : ClusterController) (w : World) :
  returned (run s E clctrl w) = Some None →
  ∃ cl', mdb (run s E clctrl w).2 !! ClusterName clctrl = Some cl'
         ∧ (checkpoint_of s cl' = true
            ∨ (s = Create ∧ String.eqb (CloudProvider clctrl) "civo" = false)).
Proof.
  destruct s; unfold run; unfold_step; simpl.
  all: follow_all_paths; intros Hnil; try done.
  all: eexists; split; [reflexivity|]; simpl; auto.
  all: left; by apply negb_false_iff.
Qed.

Lemma settled_run_is_lookup (E : Collaborators) (s : Step)
    (clctrl : ClusterController) (w : World) (cl : Cluster) :
  mdb w !! ClusterName clctrl = Some cl →
  getClusterFault E (trace w) (ClusterName clctrl) = None →
  checkpoint_of s cl = true
  ∨ (s = Create ∧ String.eqb (CloudProvider clctrl) "civo" = false) →
  run s E clctrl w
  = (Ok tt, mkWorld (mdb w) (trace w ++ [EvGetCluster (ClusterName clctrl)]) (logs w)
              (DigitaloceanStateStoreBucketName w) (VultrStateStoreBucketHostname w)).
Proof.
  intros Hget Hfault Hsettled.
  destruct s; unfold run; unfold_step; simpl; rewrite Hfault, Hget; simpl.
  - destruct Hsettled as [Hdone|[? _]]; [|done]. simpl in Hdone. by rewrite Hdone.
  - destruct Hsettled as [Hdone|[_ Hother]].
    + simpl in Hdone. by rewrite Hdone.
    + rewrite Hother. by destruct (StateStoreCreateCheck cl).
Qed.

(** X6. After a run of a step that returned [nil], running the same step
    again, the lookup succeeding, returns [nil] after the lookup alone:
    no provider call, no field update, nothing logged, the store as the
    first run left it. *)
Theorem rerun_after_nil_is_lookup (E : Collaborators) (s : Step)
    (clctrl : ClusterController) (w : World) :
  let first := run s E clctrl w in
  returned first = Some None →
  getClusterFault E (trace first.2) (ClusterName clctrl) = None →
  let second := run s E clctrl first.2 in
  returned second = Some None
  ∧ calls_between first.2 second.2 = [EvGetCluster (ClusterName clctrl)]
  ∧ mdb second.2 = mdb first.2
  ∧ logs second.2 = logs first.2.
Proof.
  intros first Hnil Hfault second. subst second.
  destruct (nil_run_outcome E s clctrl w Hnil) as (cl' & Hget & Hsettled).
  fold first in Hget. generalize dependent (first.2). intros w1 Hfault Hget.
  rewrite (settled_run_is_lookup E s clctrl w1 cl' Hget Hfault Hsettled).
  unfold returned. simpl. by rewrite calls_between_mk.
Qed.

Lemma rerun_after_nil_is_lookup_witness :
  let E := scripted complete_creds None None no_environment in
  let clctrl := demo "vultr" in
  let first := run Credentials E clctrl fresh_world in
  let second := run Credentials E clctrl first.2 in
  returned second = Some None
  ∧ calls_between first.2 second.2 = [EvGetCluster (ClusterName clctrl)]
  ∧ mdb second.2 = mdb first.2
  ∧ logs second.2 = logs first.2.
Proof.
  exact (rerun_after_nil_is_lookup (scripted complete_creds None None no_environment)
           Credentials (demo "vultr") fresh_world eq_refl eq_refl).
Defined.

(** X7. A run of a step that does not return [nil], by an error or by a
    panic, leaves the checkpoint flag of the step in the record as it was
    before the run. *)
Theorem failed_run_keeps_flag (E : Collaborators) (s : Step)
    (clctrl : ClusterController) (w : World) (cl : Cluster) :
  mdb w !! ClusterName clctrl = Some cl →
  returned (run s E clctrl w) ≠ Some None →
  checkpoint_of s <$> record_after (run s E clctrl w) (ClusterName clctrl)
  = Some (checkpoint_of s cl).
Proof.
  intros Hget. destruct s; unfold run; unfold_step; simpl; rewrite Hget.
  all: follow_paths Hget; intros Hfail; try done.
  all: by destruct cl as [[] [] ? ?].
Qed.

Lemma failed_run_keeps_flag_witness :
  checkpoint_of Credentials
    <$> record_after (run Credentials checkpoint_write_fails (demo "civo") fresh_world)
          (ClusterName (demo "civo"))
  = Some (checkpoint_of Credentials zeroCluster).
Proof.
  exact (failed_run_keeps_flag checkpoint_write_fails Credentials (demo "civo")
           fresh_world zeroCluster eq_refl ltac:(discriminate)).
Defined.

(** ** The civo path through both steps *)

Lemma civo_nil_run (E : Collaborators) (clctrl : ClusterController) (w : World)
    (cl : Cluster) :
  CloudProvider clctrl = "civo" →
  mdb w !! ClusterName clctrl = Some cl →
  StateStoreCredsCheck cl = false →
  let r := StateStoreCredentials E clctrl w in
  returned r = Some None →
  let creds :=
    (civoGetAccessCredentials E (trace w ++ [EvGetCluster (ClusterName clctrl)])
       (KubefirstStateStoreBucketName clctrl) (CloudRegion clctrl)).1 in
  let bundle :=
    mkStateStoreCredentials (civoAccessKeyID creds) (civoSecretAccessKeyID creds)
      (civoName creds) (civoID creds) in
  civoAccessKeyID creds ≠ ""
  ∧ calls_between w r.2
    = [EvGetCluster (ClusterName clctrl);
       EvCivoGetAccessCredentials (KubefirstStateStoreBucketName clctrl) (CloudRegion clctrl);
       EvUpdateCluster (ClusterName clctrl) "state_store_credentials" (VCredentials bundle);
       EvUpdateCluster (ClusterName clctrl) "state_store_creds_check" (VBool true)]
  ∧ record_after r (ClusterName clctrl)
    = Some (mkCluster true (StateStoreCreateCheck cl) bundle (StateStoreDetails_ cl)).
Proof.
  intros Hprov Hget Hcheck r. subst r.
  destruct clctrl; simpl in *; subst. unfold_step; simpl. rewrite Hget. simpl.
  follow_paths Hget; intros Hnil; try done; try congruence;
    try (rewrite Hcheck in *; simpl in *; done).
  all: match goal with
       | H : negb (civoCredsFailureMessage ?c =? "") = false |- _ =>
           apply negb_false_iff, civoCredsFailureMessage_empty in H as (Hkey & _)
       end.
  all: rewrite calls_between_mk; by destruct cl.
Qed.

(** X8. A civo run of [StateStoreCredentials] that starts from an unchecked
    record and returns [nil] made four calls: the lookup,
    [GetAccessCredentials], the write of the credentials and the write of
    the checkpoint.  It deleted no credentials and wrote no
    [state_store_details]; the record keeps the details and the create
    flag it had. *)
Theorem civo_credentials_success (E : Collaborators) (clctrl : ClusterController)
    (w : World) (cl : Cluster) :
  CloudProvider clctrl = "civo" →
  mdb w !! ClusterName clctrl = Some cl →
  StateStoreCredsCheck cl = false →
  let r := StateStoreCredentials E clctrl w in
  returned r = Some None →
  let creds :=
    (civoGetAccessCredentials E (trace w ++ [EvGetCluster (ClusterName clctrl)])
       (KubefirstStateStoreBucketName clctrl) (CloudRegion clctrl)).1 in
  let bundle :=
    mkStateStoreCredentials (civoAccessKeyID creds) (civoSecretAccessKeyID creds)
      (civoName creds) (civoID creds) in
  calls_between w r.2
  = [EvGetCluster (ClusterName clctrl);
     EvCivoGetAccessCredentials (KubefirstStateStoreBucketName clctrl) (CloudRegion clctrl);
     EvUpdateCluster (ClusterName clctrl) "state_store_credentials" (VCredentials bundle);
     EvUpdateCluster (ClusterName clctrl) "state_store_creds_check" (VBool true)]
  ∧ record_after r (ClusterName clctrl)
    = Some (mkCluster true (StateStoreCreateCheck cl) bundle (StateStoreDetails_ cl)).
Proof.
  intros Hprov Hget Hcheck r Hnil creds bundle.
  by destruct (civo_nil_run E clctrl w cl Hprov Hget Hcheck Hnil) as (_ & ? & ?).
Qed.

Lemma civo_credentials_success_witness :
  let E := scripted complete_creds None None no_environment in
  let clctrl := demo "civo" in
  let r := StateStoreCredentials E clctrl fresh_world in
  let creds :=
    (civoGetAccessCredentials E
       (trace fresh_world ++ [EvGetCluster (ClusterName clctrl)])
       (KubefirstStateStoreBucketName clctrl) (CloudRegion clctrl)).1 in
  let bundle :=
    mkStateStoreCredentials (civoAccessKeyID creds) (civoSecretAccessKeyID creds)
      (civoName creds) (civoID creds) in
  calls_between fresh_world r.2
  = [EvGetCluster (ClusterName clctrl);
     EvCivoGetAccessCredentials (KubefirstStateStoreBucketName clctrl) (CloudRegion clctrl);
     EvUpdateCluster (ClusterName clctrl) "state_store_credentials" (VCredentials bundle);
     EvUpdateCluster (ClusterName clctrl) "state_store_creds_check" (VBool true)]
  ∧ record_after r (ClusterName clctrl)
    = Some (mkCluster true (StateStoreCreateCheck zeroCluster) bundle
              (StateStoreDetails_ zeroCluster)).
Proof.
  exact (civo_credentials_success (scripted complete_creds None None no_environment)
           (demo "civo") fresh_world zeroCluster eq_refl eq_refl eq_refl eq_refl).
Defined.

Lemma civo_create_first_calls (E : Collaborators) (clctrl : ClusterController)
    (w : World) (cl : Cluster) :
  CloudProvider clctrl = "civo" →
  getClusterFault E (trace w) (ClusterName clctrl) = None →
  mdb w !! ClusterName clctrl = Some cl →
  StateStoreCreateCheck cl = false →
  let r := StateStoreCreate E clctrl w in
  take 2 (calls_between w r.2)
  = [EvGetCluster (ClusterName clctrl);
     EvCivoCreateStorageBucket (AccessKeyID (StateStoreCredentials_ cl))
       (KubefirstStateStoreBucketName clctrl) (CloudRegion clctrl)]
  ∧ ∃ rest, logs r.2
            = logs w ++ Sprintf "access key id %s" [AccessKeyID (StateStoreCredentials_ cl)]
                        :: rest.
Proof.
  intros Hprov Hfault Hget Hcheck r. subst r.
  destruct clctrl; simpl in *; subst. unfold_step; simpl.
  rewrite Hfault, Hget. simpl. rewrite Hcheck. simpl.
  follow_paths Hget; rewrite calls_between_mk; (split; [done|]); by eexists.
Qed.

(** X9. The two steps in sequence, for civo.  After [StateStoreCredentials]
    has turned an unchecked record into a checked one, [StateStoreCreate]
    (the record not yet marked as created, the lookup succeeding) calls
    [CreateStorageBucket] with the access key that [GetAccessCredentials]
    answered in the first step, and that key is not empty. *)
Theorem civo_create_uses_acquired_key (E : Collaborators) (clctrl : ClusterController)
    (w : World) (cl : Cluster) :
  CloudProvider clctrl = "civo" →
  mdb w !! ClusterName clctrl = Some cl →
  StateStoreCredsCheck cl = false →
  StateStoreCreateCheck cl = false →
  let first := StateStoreCredentials E clctrl w in
  returned first = Some None →
  getClusterFault E (trace first.2) (ClusterName clctrl) = None →
  let second := StateStoreCreate E clctrl first.2 in
  let creds :=
    (civoGetAccessCredentials E (trace w ++ [EvGetCluster (ClusterName clctrl)])
       (KubefirstStateStoreBucketName clctrl) (CloudRegion clctrl)).1 in
  civoAccessKeyID creds ≠ ""
  ∧ take 2 (calls_between first.2 second.2)
    = [EvGetCluster (ClusterName clctrl);
       EvCivoCreateStorageBucket (civoAccessKeyID creds)
         (KubefirstStateStoreBucketName clctrl) (CloudRegion clctrl)].
Proof.
  intros Hprov Hget Hcheck Hcreate first Hnil Hfault second creds. subst second.
  destruct (civo_nil_run E clctrl w cl Hprov Hget Hcheck Hnil) as (Hkey & _ & Hafter).
  split; [done|]. fold first in Hafter. unfold record_after in Hafter.
  generalize dependent (first.2). intros w1 Hfault Hafter.
  by destruct (civo_create_first_calls E clctrl w1 _ Hprov Hfault Hafter Hcreate)
    as [Hcalls _].
Qed.

Lemma civo_create_uses_acquired_key_witness :
  let E := scripted complete_creds None None no_environment in
  let clctrl := demo "civo" in
  let first := StateStoreCredentials E clctrl fresh_world in
  let second := StateStoreCreate E clctrl first.2 in
  let creds :=
    (civoGetAccessCredentials E
       (trace fresh_world ++ [EvGetCluster (ClusterName clctrl)])
       (KubefirstStateStoreBucketName clctrl) (CloudRegion clctrl)).1 in
  civoAccessKeyID creds ≠ ""
  ∧ take 2 (calls_between first.2 second.2)
    = [EvGetCluster (ClusterName clctrl);
       EvCivoCreateStorageBucket (civoAccessKeyID creds)
         (KubefirstStateStoreBucketName clctrl) (CloudRegion clctrl)].
Proof.
  exact (civo_create_uses_acquired_key
           (scripted complete_creds None None no_environment)
           (demo "civo") fresh_world zeroCluster
           eq_refl eq_refl eq_refl eq_refl eq_refl eq_refl).
Defined.

(** X10. A civo run of [StateStoreCreate] on a record not yet marked as
    created writes the stored access key id to the log, as the first line
    it logs, whatever the provider call and the updates answer. *)
Theorem civo_create_logs_access_key (E : Collaborators) (clctrl : ClusterController)
    (w : World) (cl : Cluster) :
  CloudProvider clctrl = "civo" →
  getClusterFault E (trace w) (ClusterName clctrl) = None →
  mdb w !! ClusterName clctrl = Some cl →
  StateStoreCreateCheck cl = false →
  ∃ rest, logs (StateStoreCreate E clctrl w).2
          = logs w ++ Sprintf "access key id %s" [AccessKeyID (StateStoreCredentials_ cl)]
                      :: rest.
Proof.
  intros Hprov Hfault Hget Hcheck.
  by destruct (civo_create_first_calls E clctrl w cl Hprov Hfault Hget Hcheck) as [_ ?].
Qed.

Lemma civo_create_logs_access_key_witness :
  ∃ rest, logs (StateStoreCreate (scripted complete_creds None None no_environment)
                  (demo "civo") (world_with creds_done)).2
          = logs (world_with creds_done)
            ++ Sprintf "access key id %s" [AccessKeyID (StateStoreCredentials_ creds_done)]
               :: rest.
Proof.
  exact (civo_create_logs_access_key (scripted complete_creds None None no_environment)
           (demo "civo") (world_with creds_done) creds_done
           eq_refl eq_refl eq_refl eq_refl).
Defined.

(** X11. A civo run of [StateStoreCreate] that starts from a record not yet
    marked as created and returns [nil] made four calls: the lookup,
    [CreateStorageBucket] with the stored access key, the write of the
    details and the write of the checkpoint.  The details of the record
    are replaced as a whole by the name and id of the bucket; its
    credentials and their flag are as before. *)
Theorem civo_create_success (E : Collaborators) (clctrl : ClusterController)
    (w : World) (cl : Cluster) :
  CloudProvider clctrl = "civo" →
  mdb w !! ClusterName clctrl = Some cl →
  StateStoreCreateCheck cl = false →
  let r := StateStoreCreate E clctrl w in
  returned r = Some None →
  let key := AccessKeyID (StateStoreCredentials_ cl) in
  let bucket :=
    (civoCreateStorageBucket E (trace w ++ [EvGetCluster (ClusterName clctrl)])
       key (KubefirstStateStoreBucketName clctrl) (CloudRegion clctrl)).1 in
  let details := mkStateStoreDetails "" "" (bucketName bucket) (bucketID bucket) "" in
  calls_between w r.2
  = [EvGetCluster (ClusterName clctrl);
     EvCivoCreateStorageBucket key
       (KubefirstStateStoreBucketName clctrl) (CloudRegion clctrl);
     EvUpdateCluster (ClusterName clctrl) "state_store_details" (VDetails details);
     EvUpdateCluster (ClusterName clctrl) "state_store_create_check" (VBool true)]
  ∧ record_after r (ClusterName clctrl)
    = Some (mkCluster (StateStoreCredsCheck cl) true (StateStoreCredentials_ cl) details).
Proof.
  intros Hprov Hget Hcheck r. subst r.
  destruct clctrl; simpl in *; subst. unfold_step; simpl. rewrite Hget. simpl.
  follow_paths Hget; intros Hnil; try done; try congruence;
    try (rewrite Hcheck in *; simpl in *; done).
  all: rewrite calls_between_mk; by destruct cl.
Qed.

Lemma civo_create_success_witness :
  let E := scripted complete_creds None None no_environment in
  let clctrl := demo "civo" in
  let cl := creds_done in
  let w := world_with creds_done in
  let r := StateStoreCreate E clctrl w in
  let key := AccessKeyID (StateStoreCredentials_ cl) in
  let bucket :=
    (civoCreateStorageBucket E (trace w ++ [EvGetCluster (ClusterName clctrl)])
       key (KubefirstStateStoreBucketName clctrl) (CloudRegion clctrl)).1 in
  let details := mkStateStoreDetails "" "" (bucketName bucket) (bucketID bucket) "" in
  calls_between w r.2
  = [EvGetCluster (ClusterName clctrl);
     EvCivoCreateStorageBucket key
       (KubefirstStateStoreBucketName clctrl) (CloudRegion clctrl);
     EvUpdateCluster (ClusterName clctrl) "state_store_details" (VDetails details);
     EvUpdateCluster (ClusterName clctrl) "state_store_create_check" (VBool true)]
  ∧ record_after r (ClusterName clctrl)
    = Some (mkCluster (StateStoreCredsCheck cl) true (StateStoreCredentials_ cl) details).
Proof.
  exact (civo_create_success (scripted complete_creds None None no_environment)
           (demo "civo") (world_with creds_done) creds_done
           eq_refl eq_refl eq_refl eq_refl).
Defined.

(** ** The aws branch *)

Lemma substring_whole (s : string) : String.substring 0 (String.length s) s = s.
Proof. induction s as [|c s IH]; simpl; [done|]. by rewrite IH. Qed.

Lemma ReplaceAll_from_no_slash (fuel : nat) (s : string) :
  (String.length s <= fuel)%nat →
  contains_char "/" (ReplaceAll_from fuel s "/" "") = false.
Proof.
  revert s. induction fuel as [|fuel IH]; intros s Hlen.
  - destruct s; [done|simpl in Hlen; lia].
  - destruct s as [|c rest]; [done|]. simpl in Hlen.
    cbn [ReplaceAll_from String.prefix].
    destruct (Ascii.ascii_dec "/" c) as [<-|Hc].
    + simpl. rewrite Nat.sub_0_r, substring_whole.
      replace (String.prefix "" rest) with true by (by destruct rest).
      simpl. apply IH. lia.
    + cbn [contains_char]. rewrite IH by lia.
      apply Ascii.eqb_neq in Hc. rewrite Ascii.eqb_sym, Hc. done.
Qed.

Lemma ReplaceAll_no_slash (s : string) :
  contains_char "/" (ReplaceAll s "/" "") = false.
Proof. by apply ReplaceAll_from_no_slash. Qed.

(** X12. An aws run of [StateStoreCredentials] that starts from an unchecked
    record and returns [nil] created the state-store bucket, then the
    artifacts bucket, each call answering a location.  The record then
    holds the two locations with every slash removed as its bucket names,
    and as credentials the access key pair of the controller, with no
    name and no id. *)
Theorem aws_credentials_success (E : Collaborators) (clctrl : ClusterController)
    (w : World) (cl : Cluster) :
  CloudProvider clctrl = "aws" →
  mdb w !! ClusterName clctrl = Some cl →
  StateStoreCredsCheck cl = false →
  let r := StateStoreCredentials E clctrl w in
  returned r = Some None →
  let stateCall := EvAwsCreateBucket (KubefirstStateStoreBucketName clctrl) in
  let artifactsCall := EvAwsCreateBucket (KubefirstArtifactsBucketName clctrl) in
  ∃ stateLocation artifactsLocation,
    awsCreateBucket E (trace w ++ [EvGetCluster (ClusterName clctrl)])
      (KubefirstStateStoreBucketName clctrl)
    = (Some (mkCreateBucketOutput (Some stateLocation)), None)
    ∧ awsCreateBucket E (trace w ++ [EvGetCluster (ClusterName clctrl); stateCall])
        (KubefirstArtifactsBucketName clctrl)
      = (Some (mkCreateBucketOutput (Some artifactsLocation)), None)
    ∧ take 3 (calls_between w r.2)
      = [EvGetCluster (ClusterName clctrl); stateCall; artifactsCall]
    ∧ record_after r (ClusterName clctrl)
      = Some (mkCluster true (StateStoreCreateCheck cl)
                (mkStateStoreCredentials
                   (AwsAccessKeyID clctrl) (AwsSecretAccessKey clctrl) "" "")
                (mkStateStoreDetails
                   (ReplaceAll stateLocation "/" "")
                   (ReplaceAll artifactsLocation "/" "") "" "" ""))
    ∧ contains_char "/" (ReplaceAll stateLocation "/" "") = false
    ∧ contains_char "/" (ReplaceAll artifactsLocation "/" "") = false.
Proof.
  intros Hprov Hget Hcheck r. subst r.
  destruct clctrl; simpl in *; subst. unfold_step; simpl. rewrite Hget. simpl.
  follow_paths Hget; intros Hnil; try done; try congruence;
    try (rewrite Hcheck in *; simpl in *; done).
  all: repeat match goal with
              | out : CreateBucketOutput |- _ => destruct out; simpl in *; subst
              end.
  all: eexists _, _; rewrite ?calls_between_mk.
  all: repeat split; try done; try apply ReplaceAll_no_slash.
  all: by destruct cl.
Qed.

Lemma aws_credentials_success_witness :
  let E := scripted complete_creds None None no_environment in
  let clctrl := demo "aws" in
  let r := StateStoreCredentials E clctrl fresh_world in
  let stateCall := EvAwsCreateBucket (KubefirstStateStoreBucketName clctrl) in
  let artifactsCall := EvAwsCreateBucket (KubefirstArtifactsBucketName clctrl) in
  ∃ stateLocation artifactsLocation,
    awsCreateBucket E (trace fresh_world ++ [EvGetCluster (ClusterName clctrl)])
      (KubefirstStateStoreBucketName clctrl)
    = (Some (mkCreateBucketOutput (Some stateLocation)), None)
    ∧ awsCreateBucket E
        (trace fresh_world ++ [EvGetCluster (ClusterName clctrl); stateCall])
        (KubefirstArtifactsBucketName clctrl)
      = (Some (mkCreateBucketOutput (Some artifactsLocation)), None)
    ∧ take 3 (calls_between fresh_world r.2)
      = [EvGetCluster (ClusterName clctrl); stateCall; artifactsCall]
    ∧ record_after r (ClusterName clctrl)
      = Some (mkCluster true (StateStoreCreateCheck zeroCluster)
                (mkStateStoreCredentials
                   (AwsAccessKeyID clctrl) (AwsSecretAccessKey clctrl) "" "")
                (mkStateStoreDetails
                   (ReplaceAll stateLocation "/" "")
                   (ReplaceAll artifactsLocation "/" "") "" "" ""))
    ∧ contains_char "/" (ReplaceAll stateLocation "/" "") = false
    ∧ contains_char "/" (ReplaceAll artifactsLocation "/" "") = false.
Proof.
  exact (aws_credentials_success (scripted complete_creds None None no_environment)
           (demo "aws") fresh_world zeroCluster eq_refl eq_refl eq_refl eq_refl).
Defined.

(** X13. In the aws branch, when both [CreateBucket] calls return without
    error but one of them gives no location (a nil output or a nil
    [Location]), the step panics on the dereference: both buckets have
    been asked for, no field update has been made and the store is as it
    was. *)
Theorem aws_missing_location_panics (E : Collaborators) (clctrl : ClusterController)
    (w : World) (cl : Cluster) (stateOut artifactsOut : option CreateBucketOutput) :
  CloudProvider clctrl = "aws" →
  getClusterFault E (trace w) (ClusterName clctrl) = None →
  mdb w !! ClusterName clctrl = Some cl →
  StateStoreCredsCheck cl = false →
  let stateCall := EvAwsCreateBucket (KubefirstStateStoreBucketName clctrl) in
  let artifactsCall := EvAwsCreateBucket (KubefirstArtifactsBucketName clctrl) in
  awsCreateBucket E (trace w ++ [EvGetCluster (ClusterName clctrl)])
    (KubefirstStateStoreBucketName clctrl) = (stateOut, None) →
  awsCreateBucket E (trace w ++ [EvGetCluster (ClusterName clctrl); stateCall])
    (KubefirstArtifactsBucketName clctrl) = (artifactsOut, None) →
  stateOut ≫= Location = None ∨ artifactsOut ≫= Location = None →
  let r := StateStoreCredentials E clctrl w in
  returned r = None
  ∧ calls_between w r.2 = [EvGetCluster (ClusterName clctrl); stateCall; artifactsCall]
  ∧ mdb r.2 = mdb w.
Proof.
  intros Hprov Hfault Hget Hcheck stateCall artifactsCall Hstate Hartifacts Hnil r.
  subst r stateCall artifactsCall.
  destruct clctrl; simpl in *; subst. unfold_step; simpl.
  rewrite Hfault, Hget. simpl. rewrite Hcheck. simpl. rewrite Hstate. simpl.
  rewrite <- ?app_assoc. simpl. rewrite Hartifacts. simpl.
  destruct stateOut as [[[loc1|]]|], artifactsOut as [[[loc2|]]|]; simpl in *;
    rewrite <- ?app_assoc; simpl; rewrite ?calls_between_mk; try done.
  by destruct Hnil.
Qed.

Lemma aws_missing_location_panics_witness :
  let E := scripted_aws (Some "/k1-state-store-demo") None in
  let clctrl := demo "aws" in
  let r := StateStoreCredentials E clctrl fresh_world in
  let stateCall := EvAwsCreateBucket (KubefirstStateStoreBucketName clctrl) in
  let artifactsCall := EvAwsCreateBucket (KubefirstArtifactsBucketName clctrl) in
  returned r = None
  ∧ calls_between fresh_world r.2
    = [EvGetCluster (ClusterName clctrl); stateCall; artifactsCall]
  ∧ mdb r.2 = mdb fresh_world.
Proof.
  exact (aws_missing_location_panics
           (scripted_aws (Some "/k1-state-store-demo") None)
           (demo "aws") fresh_world zeroCluster
           (Some (mkCreateBucketOutput (Some "/k1-state-store-demo")))
           (Some (mkCreateBucketOutput None))
           eq_refl eq_refl eq_refl eq_refl eq_refl eq_refl (or_intror eq_refl)).
Defined.

(** ** The vultr branch *)

(** X14. A vultr run of [StateStoreCredentials] that starts from an unchecked
    record and returns [nil] created the object storage for the region
    and bucket name of the controller, then the bucket, with the keys and
    the host name of that object storage.  The record holds the keys,
    label and id of the object storage as credentials and its label, id
    and host name as details, and [VultrStateStoreBucketHostname] is that
    host name. *)
Theorem vultr_credentials_success (E : Collaborators) (clctrl : ClusterController)
    (w : World) (cl : Cluster) :
  CloudProvider clctrl = "vultr" →
  mdb w !! ClusterName clctrl = Some cl →
  StateStoreCredsCheck cl = false →
  let r := StateStoreCredentials E clctrl w in
  returned r = Some None →
  let objst :=
    (vultrCreateObjectStorage E
       (trace w ++ [EvGetCluster (ClusterName clctrl); EvNewVultr])
       (CloudRegion clctrl) (KubefirstStateStoreBucketName clctrl)).1 in
  let details :=
    mkStateStoreDetails "" "" (objstLabel objst) (objstID objst) (S3Hostname objst) in
  let bundle :=
    mkStateStoreCredentials (S3AccessKey objst) (S3SecretKey objst)
      (objstLabel objst) (objstID objst) in
  calls_between w r.2
  = [EvGetCluster (ClusterName clctrl);
     EvNewVultr;
     EvVultrCreateObjectStorage (CloudRegion clctrl) (KubefirstStateStoreBucketName clctrl);
     EvVultrCreateObjectStorageBucket
       (mkVultrBucketCredentials (S3AccessKey objst) (S3SecretKey objst) (S3Hostname objst))
       (KubefirstStateStoreBucketName clctrl);
     EvUpdateCluster (ClusterName clctrl) "state_store_details" (VDetails details);
     EvUpdateCluster (ClusterName clctrl) "state_store_credentials" (VCredentials bundle);
     EvUpdateCluster (ClusterName clctrl) "state_store_creds_check" (VBool true)]
  ∧ record_after r (ClusterName clctrl)
    = Some (mkCluster true (StateStoreCreateCheck cl) bundle details)
  ∧ VultrStateStoreBucketHostname r.2 = S3Hostname objst.
Proof.
  intros Hprov Hget Hcheck r. subst r.
  destruct clctrl; simpl in *; subst. unfold_step; simpl. rewrite Hget. simpl.
  follow_paths Hget; intros Hnil; try done; try congruence;
    try (rewrite Hcheck in *; simpl in *; done).
  all: rewrite calls_between_mk; by destruct cl.
Qed.

Lemma vultr_credentials_success_witness :
  let E := scripted complete_creds None None no_environment in
  let clctrl := demo "vultr" in
  let r := StateStoreCredentials E clctrl fresh_world in
  let objst :=
    (vultrCreateObjectStorage E
       (trace fresh_world ++ [EvGetCluster (ClusterName clctrl); EvNewVultr])
       (CloudRegion clctrl) (KubefirstStateStoreBucketName clctrl)).1 in
  let details :=
    mkStateStoreDetails "" "" (objstLabel objst) (objstID objst) (S3Hostname objst) in
  let bundle :=
    mkStateStoreCredentials (S3AccessKey objst) (S3SecretKey objst)
      (objstLabel objst) (objstID objst) in
  calls_between fresh_world r.2
  = [EvGetCluster (ClusterName clctrl);
     EvNewVultr;
     EvVultrCreateObjectStorage (CloudRegion clctrl) (KubefirstStateStoreBucketName clctrl);
     EvVultrCreateObjectStorageBucket
       (mkVultrBucketCredentials (S3AccessKey objst) (S3SecretKey objst) (S3Hostname objst))
       (KubefirstStateStoreBucketName clctrl);
     EvUpdateCluster (ClusterName clctrl) "state_store_details" (VDetails details);
     EvUpdateCluster (ClusterName clctrl) "state_store_credentials" (VCredentials bundle);
     EvUpdateCluster (ClusterName clctrl) "state_store_creds_check" (VBool true)]
  ∧ record_after r (ClusterName clctrl)
    = Some (mkCluster true (StateStoreCreateCheck zeroCluster) bundle details)
  ∧ VultrStateStoreBucketHostname r.2 = S3Hostname objst.
Proof.
  exact (vultr_credentials_success (scripted complete_creds None None no_environment)
           (demo "vultr") fresh_world zeroCluster eq_refl eq_refl eq_refl eq_refl).
Defined.

(** X15. In the vultr branch, when the object storage is created and the
    creation of the bucket in it fails, the caller gets an error made of
    the format [error creating vultr state storage bucket: %s] and the
    text of the failure.  The object storage has been created, but
    nothing is persisted and [VultrStateStoreBucketHostname] is not set:
    the record keeps no trace of it. *)
Theorem vultr_bucket_failure_wrapped (E : Collaborators) (clctrl : ClusterController)
    (w : World) (cl : Cluster) (objst : ObjectStorage) (e : error) :
  CloudProvider clctrl = "vultr" →
  getClusterFault E (trace w) (ClusterName clctrl) = None →
  mdb w !! ClusterName clctrl = Some cl →
  StateStoreCredsCheck cl = false →
  let storageCall :=
    EvVultrCreateObjectStorage (CloudRegion clctrl) (KubefirstStateStoreBucketName clctrl) in
  let bucketCreds :=
    mkVultrBucketCredentials (S3AccessKey objst) (S3SecretKey objst) (S3Hostname objst) in
  vultrCreateObjectStorage E (trace w ++ [EvGetCluster (ClusterName clctrl); EvNewVultr])
    (CloudRegion clctrl) (KubefirstStateStoreBucketName clctrl) = (objst, None) →
  vultrCreateObjectStorageBucket E
    (trace w ++ [EvGetCluster (ClusterName clctrl); EvNewVultr; storageCall])
    bucketCreds (KubefirstStateStoreBucketName clctrl) = Some e →
  let r := StateStoreCredentials E clctrl w in
  returned r
  = Some (Some (Errorf "error creating vultr state storage bucket: %s" [Error e]))
  ∧ calls_between w r.2
    = [EvGetCluster (ClusterName clctrl); EvNewVultr; storageCall;
       EvVultrCreateObjectStorageBucket bucketCreds (KubefirstStateStoreBucketName clctrl)]
  ∧ mdb r.2 = mdb w
  ∧ VultrStateStoreBucketHostname r.2 = VultrStateStoreBucketHostname w.
Proof.
  intros Hprov Hfault Hget Hcheck storageCall bucketCreds Hstorage Hbucket r.
  subst r storageCall bucketCreds.
  destruct clctrl; simpl in *; subst. unfold_step; simpl.
  rewrite Hfault, Hget. simpl. rewrite Hcheck. simpl.
  rewrite <- ?app_assoc. simpl. rewrite Hstorage. simpl.
  rewrite <- ?app_assoc. simpl. rewrite Hbucket. simpl.
  rewrite <- ?app_assoc. simpl. by rewrite calls_between_mk.
Qed.

Lemma vultr_bucket_failure_wrapped_witness :
  let E := scripted_aws None None in
  let clctrl := demo "vultr" in
  let objst :=
    mkObjectStorage "store-1" "k1-state-store-demo" "VK1" "VS1" "ewr1.vultrobjects.com" in
  let storageCall :=
    EvVultrCreateObjectStorage (CloudRegion clctrl) (KubefirstStateStoreBucketName clctrl) in
  let bucketCreds :=
    mkVultrBucketCredentials (S3AccessKey objst) (S3SecretKey objst) (S3Hostname objst) in
  let r := StateStoreCredentials E clctrl fresh_world in
  returned r
  = Some (Some (Errorf "error creating vultr state storage bucket: %s"
                  [Error timeout_error]))
  ∧ calls_between fresh_world r.2
    = [EvGetCluster (ClusterName clctrl); EvNewVultr; storageCall;
       EvVultrCreateObjectStorageBucket bucketCreds (KubefirstStateStoreBucketName clctrl)]
  ∧ mdb r.2 = mdb fresh_world
  ∧ VultrStateStoreBucketHostname r.2 = VultrStateStoreBucketHostname fresh_world.
Proof.
  exact (vultr_bucket_failure_wrapped (scripted_aws None None)
           (demo "vultr") fresh_world zeroCluster
           (mkObjectStorage "store-1" "k1-state-store-demo" "VK1" "VS1"
              "ewr1.vultrobjects.com")
           timeout_error eq_refl eq_refl eq_refl eq_refl eq_refl eq_refl).
Defined.

(** ** The digitalocean branch *)

(** X16. A digitalocean run of [StateStoreCredentials] that starts from an
    unchecked record and returns [nil] leaves as credentials the values
    of [DO_SPACES_KEY] and [DO_SPACES_SECRET] as the environment has
    them, empty or not, with the bucket name as name and no id, and as
    details the bucket name and the host name of the endpoint. *)
Theorem digitalocean_credentials_success (E : Collaborators) (clctrl : ClusterController)
    (w : World) (cl : Cluster) :
  CloudProvider clctrl = "digitalocean" →
  mdb w !! ClusterName clctrl = Some cl →
  StateStoreCredsCheck cl = false →
  let r := StateStoreCredentials E clctrl w in
  returned r = Some None →
  record_after r (ClusterName clctrl)
  = Some (mkCluster true (StateStoreCreateCheck cl)
            (mkStateStoreCredentials
               (Getenv E "DO_SPACES_KEY") (Getenv E "DO_SPACES_SECRET")
               (KubefirstStateStoreBucketName clctrl) "")
            (mkStateStoreDetails "" "" (KubefirstStateStoreBucketName clctrl) ""
               "nyc3.digitaloceanspaces.com")).
Proof.
  intros Hprov Hget Hcheck r. subst r.
  destruct clctrl; simpl in *; subst. unfold_step; simpl. rewrite Hget. simpl.
  follow_paths Hget; intros Hnil; try done; try congruence;
    try (rewrite Hcheck in *; simpl in *; done).
  all: by destruct cl.
Qed.

Lemma digitalocean_credentials_success_witness :
  let E := scripted complete_creds None None no_environment in
  let clctrl := demo "digitalocean" in
  let r := StateStoreCredentials E clctrl fresh_world in
  record_after r (ClusterName clctrl)
  = Some (mkCluster true (StateStoreCreateCheck zeroCluster)
            (mkStateStoreCredentials
               (Getenv E "DO_SPACES_KEY") (Getenv E "DO_SPACES_SECRET")
               (KubefirstStateStoreBucketName clctrl) "")
            (mkStateStoreDetails "" "" (KubefirstStateStoreBucketName clctrl) ""
               "nyc3.digitaloceanspaces.com")).
Proof.
  exact (digitalocean_credentials_success
           (scripted complete_creds None None no_environment)
           (demo "digitalocean") fresh_world zeroCluster
           eq_refl eq_refl eq_refl eq_refl).
Defined.

(** ** A provider without a branch *)

(** X17. For a provider that is none of aws, civo, digitalocean and vultr,
    [StateStoreCredentials] on an unchecked record makes no provider
    call: its first call after the lookup is the write of an empty
    credential bundle, and if the run returns [nil] the record is marked
    as checked over that empty bundle, its details untouched. *)
Theorem unknown_provider_checkpointed (E : Collaborators) (clctrl : ClusterController)
    (w : World) (cl : Cluster) :
  CloudProvider clctrl ≠ "aws" →
  CloudProvider clctrl ≠ "civo" →
  CloudProvider clctrl ≠ "digitalocean" →
  CloudProvider clctrl ≠ "vultr" →
  getClusterFault E (trace w) (ClusterName clctrl) = None →
  mdb w !! ClusterName clctrl = Some cl →
  StateStoreCredsCheck cl = false →
  let r := StateStoreCredentials E clctrl w in
  filter (λ ev, is_adapter_call ev) (calls_between w r.2) = []
  ∧ take 2 (calls_between w r.2)
    = [EvGetCluster (ClusterName clctrl);
       EvUpdateCluster (ClusterName clctrl) "state_store_credentials"
         (VCredentials zeroCredentials)]
  ∧ match returned r with
    | Some None =>
        record_after r (ClusterName clctrl)
        = Some (mkCluster true (StateStoreCreateCheck cl) zeroCredentials
                  (StateStoreDetails_ cl))
    | _ => True
    end.
Proof.
  intros Haws Hcivo Hdo Hvultr Hfault Hget Hcheck r. subst r.
  apply String.eqb_neq in Haws, Hcivo, Hdo, Hvultr.
  unfold_step; simpl. rewrite Hfault, Hget. simpl. rewrite Hcheck. simpl.
  rewrite Haws, Hcivo, Hdo, Hvultr. simpl.
  follow_paths Hget; rewrite !calls_between_mk; repeat split; try done.
Qed.

Lemma unknown_provider_checkpointed_witness :
  let E := scripted complete_creds None None no_environment in
  let clctrl := demo "gcp" in
  let r := StateStoreCredentials E clctrl fresh_world in
  filter (λ ev, is_adapter_call ev) (calls_between fresh_world r.2) = []
  ∧ take 2 (calls_between fresh_world r.2)
    = [EvGetCluster (ClusterName clctrl);
       EvUpdateCluster (ClusterName clctrl) "state_store_credentials"
         (VCredentials zeroCredentials)]
  ∧ match returned r with
    | Some None =>
        record_after r (ClusterName clctrl)
        = Some (mkCluster true (StateStoreCreateCheck zeroCluster) zeroCredentials
                  (StateStoreDetails_ zeroCluster))
    | _ => True
    end.
Proof.
  exact (unknown_provider_checkpointed (scripted complete_creds None None no_environment)
           (demo "gcp") fresh_world zeroCluster
           ltac:(discriminate) ltac:(discriminate) ltac:(discriminate) ltac:(discriminate)
           eq_refl eq_refl eq_refl).
Defined.
